(** * news_scraper: policy check, fetch, extract, filter, aggregate, persist

    A shallow embedding of [news_scraper.py].  Python strings are modelled
    by [string], read as sequences of code points below 256 (the Latin-1
    part of Unicode): [str.lower], [str.strip] and [str.isspace] are
    Python's on that range, where they work character by character.
    Strings with higher code points are outside the model (the two symbols
    in the log lines of [send_emails.py] stand as their UTF-8 bytes).  The
    calls the script makes to the outside world
    (robots.txt download, page download, sleeping, logging, writing the
    output file) are recorded as a chronological list of [Event]s; what the
    network answers is read from a [World], what the libraries compute
    ([urljoin], the robots.txt rule matcher, the HTML parser, [to_csv]) from
    a [Lib]. *)

From Stdlib Require Import String Ascii List ZArith Lia Bool Arith.
From Stdlib Require Import DecimalString.
Import ListNotations.
Open Scope string_scope.
Open Scope list_scope.

(* ------------------------------------------------------------------ *)
(** ** Python string operations used by the script *)

Module Py.

(** Truthiness of a [str]: only the empty string is falsy. *)
Definition truthy (s : string) : bool :=
  match s with EmptyString => false | String _ _ => true end.

(** Truthiness of an optional [str]: [None] and [""] are falsy. *)
Definition truthy_opt (o : option string) : bool :=
  match o with None => false | Some s => truthy s end.

(** [c in s] for a one-character needle. *)
Fixpoint contains_char (c : ascii) (s : string) : bool :=
  match s with
  | EmptyString => false
  | String d r => if Ascii.eqb c d then true else contains_char c r
  end.

(** [s.split(sep)] for a one-character separator: every occurrence cuts,
    and the result always has at least one piece. *)
Fixpoint split (sep : ascii) (s : string) : list string :=
  match s with
  | EmptyString => [EmptyString]
  | String c r =>
      if Ascii.eqb c sep then EmptyString :: split sep r
      else match split sep r with
           | [] => [String c EmptyString]
           | p :: ps => String c p :: ps
           end
  end.

(** [s.split(sep, 1)] on a string that contains [sep]: the text before the
    first separator and the text after it. *)
Fixpoint split1 (sep : ascii) (s : string) : string * string :=
  match s with
  | EmptyString => (EmptyString, EmptyString)
  | String c r =>
      if Ascii.eqb c sep then (EmptyString, r)
      else let (a, b) := split1 sep r in (String c a, b)
  end.

(** [sep.join(pieces)]. *)
Definition join (sep : string) (pieces : list string) : string :=
  String.concat sep pieces.

(** [str.isspace] below code point 256: TAB, LF, VT, FF, CR, FS, GS, RS,
    US, the space, NEL (U+0085) and the no-break space (U+00A0). *)
Definition isspace (c : ascii) : bool :=
  let n := nat_of_ascii c in
  (((9 <=? n) && (n <=? 13)) || ((28 <=? n) && (n <=? 32))
   || (n =? 133) || (n =? 160))%nat.

Fixpoint lstrip (s : string) : string :=
  match s with
  | EmptyString => EmptyString
  | String c r => if isspace c then lstrip r else s
  end.

(** [rstrip]: a character is kept when something is kept after it or when
    it is not white space. *)
Fixpoint rstrip (s : string) : string :=
  match s with
  | EmptyString => EmptyString
  | String c r =>
      match rstrip r with
      | EmptyString => if isspace c then EmptyString else String c EmptyString
      | r' => String c r'
      end
  end.

(** [s.strip()]. *)
Definition strip (s : string) : string := rstrip (lstrip s).

(** [str.lower] below code point 256: the capitals A to Z, U+00C0 to
    U+00D6 and U+00D8 to U+00DE have their small letter 32 places further;
    every other character is left as it is. *)
Definition lower_char (c : ascii) : ascii :=
  let n := nat_of_ascii c in
  if (((65 <=? n) && (n <=? 90)) || ((192 <=? n) && (n <=? 214))
      || ((216 <=? n) && (n <=? 222)))%nat
  then ascii_of_nat (n + 32) else c.

Fixpoint lower (s : string) : string :=
  match s with
  | EmptyString => EmptyString
  | String c r => String (lower_char c) (lower r)
  end.

(** [needle in hay]: [needle] starts at some position of [hay]. *)
Fixpoint contains (needle hay : string) : bool :=
  if String.prefix needle hay then true
  else match hay with
       | EmptyString => false
       | String _ r => contains needle r
       end.

(** [str(n)] for a natural number. *)
Definition str_of_nat (n : nat) : string :=
  NilEmpty.string_of_uint (Nat.to_uint n).

End Py.

(* ------------------------------------------------------------------ *)
(** ** Data model *)

(** The dictionaries appended to [headlines]: keys [source], [title],
    [url], [time], in this order. *)
Record HeadlineRecord := mkHeadline {
  source : string;
  title : string;
  url : string;
  time : option string
}.

(** What the script reads of an [<a>] element: the text nodes below it
    (for [get_text]) and its [href] attribute ([item.get("href")] is
    [None] when the attribute is missing). *)
Record Anchor := mkAnchor {
  a_strings : list string;
  a_href : option string
}.

(** A parsed page, as far as [soup.select("a")] sees it: its anchors in
    document order. *)
Record Document := mkDocument {
  anchors : list Anchor
}.

(** A value or a raised exception (with its message). *)
Inductive Result (A : Type) : Type :=
| Ok (a : A)
| Raise (msg : string).
Arguments Ok {A} a.
Arguments Raise {A} msg.

(** Answer of [urllib.request.urlopen] to [RobotFileParser.read]. *)
Inductive UrlopenOutcome :=
| UrlopenRaises (msg : string)     (* URLError, timeout, bad URL: not an HTTPError *)
| UrlopenHTTPError (code : Z)      (* urllib.error.HTTPError with this status *)
| UrlopenBody (text : option string). (* body read; [None]: not valid UTF-8 *)

(** Answer of [requests.get]. *)
Inductive GetOutcome :=
| GetRaises (msg : string)         (* timeout, connection error, invalid URL *)
| GetResponse (status : Z) (reason : string) (text : string).

Inductive Level := INFO | WARNING | ERROR.

(** Observable actions, in the order they happen. *)
Inductive Event :=
| EvUrlopen (robots_url : string)                   (* robots.txt download *)
| EvGet (url : string) (user_agent : string) (timeout : Z) (* requests.get *)
| EvSleep (lo hi : Z)            (* time.sleep(random.uniform(lo, hi)) *)
| EvLog (lvl : Level) (msg : string)
| EvMkdir (path : string)        (* mkdir(parents=True, exist_ok=True) *)
| EvWrite (path : string) (content : string).

(** The network.  The first argument counts the network calls made so far,
    so the same URL may be answered differently at different moments. *)
Record World := mkWorld {
  urlopen : nat -> string -> UrlopenOutcome;
  requests_get : nat -> string -> GetOutcome
}.

(** Library functions the script calls and whose code is not the script's. *)
Record Lib := mkLib {
  (* urllib.parse.urljoin, on the URLs it accepts (the ValueError it has
     for a malformed host is not modelled: the script has no handler) *)
  urljoin : string -> string -> string;
  (* RobotFileParser.parse followed by the rule lookup of can_fetch:
     policy text, user agent, URL; [Raise] when the lookup raises *)
  robots_rules : string -> string -> string -> Result bool;
  (* BeautifulSoup(text, "html.parser") *)
  BeautifulSoup : string -> Result Document;
  (* pandas.DataFrame(data).to_csv(index=False) *)
  to_csv : list HeadlineRecord -> string;
  (* Path.parent *)
  path_parent : string -> string
}.

(* ------------------------------------------------------------------ *)
(** ** Effects *)

(** Outcome of running a piece of the script: its value, the events it
    produced, and the number of network calls made once it is done. *)
Record Run (A : Type) := mkRun {
  value : A;
  events : list Event;
  calls : nat
}.
Arguments mkRun {A} value events calls.
Arguments value {A} r.
Arguments events {A} r.
Arguments calls {A} r.

(** A computation, started after a given number of network calls. *)
Definition M (A : Type) : Type := nat -> Run A.

Definition ret {A} (a : A) : M A := fun n => mkRun a [] n.

Definition bind {A B} (m : M A) (f : A -> M B) : M B :=
  fun n =>
    let r := m n in
    let r' := f (value r) (calls r) in
    mkRun (value r') (events r ++ events r') (calls r').

Definition emit (e : Event) : M unit := fun n => mkRun tt [e] n.

(** One network call: it is numbered, then counted. *)
Definition network {A} (ask : nat -> A) (e : Event) : M A :=
  fun n => mkRun (ask n) [e] (S n).

Definition logging (lvl : Level) (msg : string) : M unit := emit (EvLog lvl msg).

Declare Scope m_scope.
Delimit Scope m_scope with m.
Notation "x <- m ;; k" := (bind m (fun x => k))
  (at level 61, m at next level, right associativity) : m_scope.
Notation "m ;;; k" := (bind m (fun _ => k))
  (at level 61, right associativity) : m_scope.
Open Scope m_scope.

(* ------------------------------------------------------------------ *)
(** ** [urllib.robotparser.RobotFileParser], as [can_fetch] uses it

    The three flags and the two methods follow CPython's
    [Lib/urllib/robotparser.py]: [read] catches [HTTPError] itself (401 and
    403 set [disallow_all], every other 4xx sets [allow_all], anything else
    leaves the parser untouched) and lets every other exception escape;
    [can_fetch] looks at the flags before it looks at the rules. *)

Module RobotFileParser.

Record t := mk {
  rp_url : string;
  disallow_all : bool;
  allow_all : bool;
  last_checked : bool;     (* set by [parse]: a policy text was read *)
  rp_text : string         (* the policy text given to [parse] *)
}.

(** [RobotFileParser()] *)
Definition new : t := mk "" false false false "".

(** [rp.set_url(url)] *)
Definition set_url (rp : t) (u : string) : t :=
  mk u (disallow_all rp) (allow_all rp) (last_checked rp) (rp_text rp).

(** [rp.read()] *)
Definition read (w : World) (rp : t) : M (Result t) :=
  o <- network (fun n => urlopen w n (rp_url rp)) (EvUrlopen (rp_url rp)) ;;
  ret match o with
      | UrlopenRaises msg => Raise msg
      | UrlopenHTTPError code =>
          if (code =? 401)%Z || (code =? 403)%Z then
            Ok (mk (rp_url rp) true (allow_all rp) (last_checked rp) (rp_text rp))
          else if (400 <=? code)%Z && (code <? 500)%Z then
            Ok (mk (rp_url rp) (disallow_all rp) true (last_checked rp) (rp_text rp))
          else Ok rp
      | UrlopenBody None => Raise "UnicodeDecodeError"
      | UrlopenBody (Some text) =>
          Ok (mk (rp_url rp) (disallow_all rp) (allow_all rp) true text)
      end.

(** [rp.can_fetch(useragent, url)] *)
Definition can_fetch (lib : Lib) (rp : t) (useragent u : string) : Result bool :=
  if disallow_all rp then Ok false
  else if allow_all rp then Ok true
  else if negb (last_checked rp) then Ok false
  else robots_rules lib (rp_text rp) useragent u.

End RobotFileParser.

(* ------------------------------------------------------------------ *)
(** ** The script *)

Section Scraper.

Variable lib : Lib.
Variable w : World.

(** Default of the [user_agent] parameter of [can_fetch]. *)
Definition default_user_agent : string := "*".

(** [base = '/'.join(url.split('/')[:3])] *)
Definition base_of (u : string) : string :=
  Py.join "/" (firstn 3 (Py.split "/" u)).

(** [can_fetch(url, user_agent)] *)
Definition can_fetch (u user_agent : string) : M bool :=
  let base := base_of u in
  let robots_url := urljoin lib base "robots.txt" in
  let rp := RobotFileParser.set_url RobotFileParser.new robots_url in
  r <- RobotFileParser.read w rp ;;
  match r with
  | Raise e =>
      logging WARNING ("Could not read robots.txt for " ++ base ++ ": " ++ e) ;;;
      ret false
  | Ok rp' =>
      match RobotFileParser.can_fetch lib rp' user_agent u with
      | Ok b => ret b
      | Raise e =>
          logging WARNING ("Could not read robots.txt for " ++ base ++ ": " ++ e) ;;;
          ret false
      end
  end.

(** The [User-Agent] header of the page request. *)
Definition request_user_agent : string := "Mozilla/5.0 (NewsScraperBot)".

(** [response.raise_for_status()]: statuses 400 to 599 raise. *)
Definition raise_for_status (status : Z) (reason u : string) : Result unit :=
  if (400 <=? status)%Z && (status <? 500)%Z then
    Raise (Py.str_of_nat (Z.to_nat status) ++ " Client Error: " ++ reason
           ++ " for url: " ++ u)
  else if (500 <=? status)%Z && (status <? 600)%Z then
    Raise (Py.str_of_nat (Z.to_nat status) ++ " Server Error: " ++ reason
           ++ " for url: " ++ u)
  else Ok tt.

(** The body of the [try] block of [fetch_html]; [Raise] is what the
    [except] clause receives. *)
Definition fetch_html_try (u : string) : M (Result Document) :=
  o <- network (fun n => requests_get w n u) (EvGet u request_user_agent 10) ;;
  match o with
  | GetRaises e => ret (Raise e)
  | GetResponse status reason text =>
      match raise_for_status status reason u with
      | Raise e => ret (Raise e)
      | Ok _ =>
          emit (EvSleep 1 3) ;;;
          ret (BeautifulSoup lib text)
      end
  end.

(** [fetch_html(url)] *)
Definition fetch_html (u : string) : M (option Document) :=
  allowed <- can_fetch u default_user_agent ;;
  if negb allowed then
    logging WARNING ("Skipping " ++ u ++ " due to robots.txt restrictions.") ;;;
    ret None
  else
    r <- fetch_html_try u ;;
    match r with
    | Ok soup => ret (Some soup)
    | Raise e =>
        logging ERROR ("Failed to fetch " ++ u ++ ": " ++ e) ;;;
        ret None
    end.

(** [item.get_text(strip=True)]: the text nodes are stripped, the empty
    ones dropped, the rest glued together. *)
Definition get_text_strip (item : Anchor) : string :=
  Py.join "" (filter Py.truthy (map Py.strip (a_strings item))).

(** [keyword and keyword.lower() not in title.lower()] *)
Definition keyword_rejects (keyword : option string) (t : string) : bool :=
  match keyword with
  | None => false
  | Some k => Py.truthy k && negb (Py.contains (Py.lower k) (Py.lower t))
  end.

(** One turn of the [for item in soup.select("a")] loop: [None] when the
    turn ends in [continue], the appended dictionary otherwise. *)
Definition headline_of (source_name u : string) (keyword : option string)
    (item : Anchor) : option HeadlineRecord :=
  let t := get_text_strip item in
  let link := a_href item in
  if negb (Py.truthy t) || negb (Py.truthy_opt link) then None
  else
    let full_url := urljoin lib u (match link with Some l => l | None => "" end) in
    if keyword_rejects keyword t then None
    else Some (mkHeadline source_name t full_url None).

(** The loop itself, with [headlines] as its accumulator. *)
Fixpoint scrape_items (source_name u : string) (keyword : option string)
    (items : list Anchor) (headlines : list HeadlineRecord)
    : list HeadlineRecord :=
  match items with
  | [] => headlines
  | item :: rest =>
      match headline_of source_name u keyword item with
      | None => scrape_items source_name u keyword rest headlines
      | Some h => scrape_items source_name u keyword rest (headlines ++ [h])
      end
  end.

(** [scrape_headlines(source_name, url, keyword)].  A [BeautifulSoup]
    object is always truthy, so [if not soup] only catches [None]. *)
Definition scrape_headlines (source_name u : string) (keyword : option string)
    : M (list HeadlineRecord) :=
  logging INFO ("Scraping " ++ source_name ++ "...") ;;;
  soup <- fetch_html u ;;
  match soup with
  | None => ret []
  | Some soup =>
      let headlines := scrape_items source_name u keyword (anchors soup) [] in
      logging INFO ("Found " ++ Py.str_of_nat (length headlines)
                    ++ " headlines from " ++ source_name ++ ".") ;;;
      ret headlines
  end.

End Scraper.

(* ------------------------------------------------------------------ *)
(** ** JSON text: [json.dump(..., ensure_ascii=False, indent=2)] and
    [json.loads], on the values the script stores (objects, arrays,
    strings and [None]) *)

Module Json.

#[local] Unset Elimination Schemes.
Inductive value :=
| Null
| Str (s : string)
| Arr (items : list value)
| Obj (members : list (string * value)).
#[local] Set Elimination Schemes.

Definition dquote : ascii := "034"%char.
Definition backslash : ascii := "092"%char.
Definition newline : ascii := "010"%char.

Definition hex_digit (n : nat) : ascii :=
  match n with
  | 0 => "0" | 1 => "1" | 2 => "2" | 3 => "3" | 4 => "4" | 5 => "5"
  | 6 => "6" | 7 => "7" | 8 => "8" | 9 => "9" | 10 => "a" | 11 => "b"
  | 12 => "c" | 13 => "d" | 14 => "e" | _ => "f"
  end%char.

(** The replacement table of [encode_basestring]: quote, backslash and the
    control characters are escaped, everything else is copied. *)
Definition escape_char (c : ascii) : string :=
  let n := nat_of_ascii c in
  if (n =? 34)%nat then String backslash (String dquote "")
  else if (n =? 92)%nat then String backslash (String backslash "")
  else if (n =? 8)%nat then String backslash "b"
  else if (n =? 12)%nat then String backslash "f"
  else if (n =? 10)%nat then String backslash "n"
  else if (n =? 13)%nat then String backslash "r"
  else if (n =? 9)%nat then String backslash "t"
  else if (n <? 32)%nat then
    String backslash
      (String "u" (String "0" (String "0"
         (String (hex_digit (n / 16)) (String (hex_digit (n mod 16)) "")))))
  else String c "".

Fixpoint escape (s : string) : string :=
  match s with
  | EmptyString => EmptyString
  | String c r => escape_char c ++ escape r
  end.

Definition encode_basestring (s : string) : string :=
  String dquote (escape s ++ String dquote "").

Fixpoint spaces (n : nat) : string :=
  match n with 0 => "" | S m => String " " (spaces m) end.

(** Line break followed by the indentation of nesting level [lvl]. *)
Definition newline_indent (lvl : nat) : string :=
  String newline (spaces (2 * lvl)).

(** The encoder at nesting level [lvl]: item separator [","], key
    separator [": "], empty containers written [[]] and [{}]. *)
Fixpoint encode (lvl : nat) (v : value) {struct v} : string :=
  match v with
  | Null => "null"
  | Str s => encode_basestring s
  | Arr [] => "[]"
  | Arr items =>
      "[" ++ newline_indent (S lvl)
      ++ Py.join ("," ++ newline_indent (S lvl)) (map (encode (S lvl)) items)
      ++ newline_indent lvl ++ "]"
  | Obj [] => "{}"
  | Obj members =>
      "{" ++ newline_indent (S lvl)
      ++ Py.join ("," ++ newline_indent (S lvl))
           (map (fun kv => (encode_basestring (fst kv) ++ ": "
                            ++ encode (S lvl) (snd kv))%string) members)
      ++ newline_indent lvl ++ "}"
  end.

(** The dictionary built by [scrape_headlines], as a JSON value. *)
Definition of_headline (h : HeadlineRecord) : value :=
  Obj [("source", Str (source h)); ("title", Str (title h));
       ("url", Str (url h));
       ("time", match time h with None => Null | Some t => Str t end)].

(** [json.dumps(data, ensure_ascii=False, indent=2)] *)
Definition dumps (data : list HeadlineRecord) : string :=
  encode 0 (Arr (map of_headline data)).

(** *** Decoding *)

(** [WHITESPACE]: space, TAB, LF, CR. *)
Definition is_ws (c : ascii) : bool :=
  let n := nat_of_ascii c in
  ((n =? 32) || (n =? 9) || (n =? 10) || (n =? 13))%nat.

Fixpoint skip_ws (s : string) : string :=
  match s with
  | EmptyString => EmptyString
  | String c r => if is_ws c then skip_ws r else s
  end.

Definition hex_value (c : ascii) : option nat :=
  let n := nat_of_ascii c in
  if ((48 <=? n) && (n <=? 57))%nat then Some (n - 48)
  else if ((97 <=? n) && (n <=? 102))%nat then Some (n - 87)
  else if ((65 <=? n) && (n <=? 70))%nat then Some (n - 55)
  else None.

(** The character named by [\uXXXX]; code points above 255 are outside
    the strings of this development and are refused. *)
Definition unicode_escape (a b c d : ascii) : option ascii :=
  match hex_value a, hex_value b, hex_value c, hex_value d with
  | Some x, Some y, Some z, Some t =>
      let n := ((x * 16 + y) * 16 + z) * 16 + t in
      if (n <? 256)%nat then Some (ascii_of_nat n) else None
  | _, _, _, _ => None
  end.

(** [scanstring] in strict mode, started after the opening quote: the
    decoded text and what follows the closing quote. *)
Fixpoint scanstring (s : string) : option (string * string) :=
  match s with
  | EmptyString => None
  | String c r =>
      let n := nat_of_ascii c in
      if (n =? 34)%nat then Some (EmptyString, r)
      else if (n =? 92)%nat then
        match r with
        | String e r1 =>
            let k := nat_of_ascii e in
            let plain (ch : ascii) :=
              match scanstring r1 with
              | Some (t, rest) => Some (String ch t, rest)
              | None => None
              end in
            if (k =? 34)%nat then plain dquote
            else if (k =? 92)%nat then plain backslash
            else if (k =? 47)%nat then plain "/"%char
            else if (k =? 98)%nat then plain "008"%char
            else if (k =? 102)%nat then plain "012"%char
            else if (k =? 110)%nat then plain "010"%char
            else if (k =? 114)%nat then plain "013"%char
            else if (k =? 116)%nat then plain "009"%char
            else if (k =? 117)%nat then
              match r1 with
              | String h1 (String h2 (String h3 (String h4 r2))) =>
                  match unicode_escape h1 h2 h3 h4, scanstring r2 with
                  | Some ch, Some (t, rest) => Some (String ch t, rest)
                  | _, _ => None
                  end
              | _ => None
              end
            else None
        | EmptyString => None
        end
      else if (n <? 32)%nat then None
      else
        match scanstring r with
        | Some (t, rest) => Some (String c t, rest)
        | None => None
        end
  end.

(** [scan_once], [JSONArray] and [JSONObject].  [fuel] bounds the number
    of nested calls; none of the three skips leading white space, their
    callers do. *)
Fixpoint scan_once (fuel : nat) (s : string) : option (value * string) :=
  match fuel with
  | 0 => None
  | S f =>
      match s with
      | EmptyString => None
      | String c r =>
          let n := nat_of_ascii c in
          if (n =? 34)%nat then
            match scanstring r with
            | Some (t, rest) => Some (Str t, rest)
            | None => None
            end
          else if (n =? 123)%nat then
            match skip_ws r with
            | String c1 r1 =>
                if (nat_of_ascii c1 =? 125)%nat then Some (Obj [], r1)
                else if (nat_of_ascii c1 =? 34)%nat then
                  match scan_members f r1 with
                  | Some (ms, rest) => Some (Obj ms, rest)
                  | None => None
                  end
                else None
            | EmptyString => None
            end
          else if (n =? 91)%nat then
            match skip_ws r with
            | String c1 r1 =>
                if (nat_of_ascii c1 =? 93)%nat then Some (Arr [], r1)
                else
                  match scan_items f (String c1 r1) with
                  | Some (vs, rest) => Some (Arr vs, rest)
                  | None => None
                  end
            | EmptyString => None
            end
          else
            match s with
            | String "n" (String "u" (String "l" (String "l" rest))) =>
                Some (Null, rest)
            | _ => None
            end
      end
  end

(** The items of an array, from the first character of an item to the
    closing bracket. *)
with scan_items (fuel : nat) (s : string) : option (list value * string) :=
  match fuel with
  | 0 => None
  | S f =>
      match scan_once f s with
      | None => None
      | Some (v, r) =>
          match skip_ws r with
          | String c r1 =>
              if (nat_of_ascii c =? 93)%nat then Some ([v], r1)
              else if (nat_of_ascii c =? 44)%nat then
                match scan_items f (skip_ws r1) with
                | Some (vs, rest) => Some (v :: vs, rest)
                | None => None
                end
              else None
          | EmptyString => None
          end
      end
  end

(** The members of an object, from just after the opening quote of a key
    to the closing brace. *)
with scan_members (fuel : nat) (s : string)
    : option (list (string * value) * string) :=
  match fuel with
  | 0 => None
  | S f =>
      match scanstring s with
      | None => None
      | Some (key, r) =>
          match skip_ws r with
          | String c r1 =>
              if (nat_of_ascii c =? 58)%nat then
                match scan_once f (skip_ws r1) with
                | None => None
                | Some (v, r2) =>
                    match skip_ws r2 with
                    | String c2 r3 =>
                        if (nat_of_ascii c2 =? 125)%nat then Some ([(key, v)], r3)
                        else if (nat_of_ascii c2 =? 44)%nat then
                          match skip_ws r3 with
                          | String c3 r4 =>
                              if (nat_of_ascii c3 =? 34)%nat then
                                match scan_members f r4 with
                                | Some (ms, rest) => Some ((key, v) :: ms, rest)
                                | None => None
                                end
                              else None
                          | EmptyString => None
                          end
                        else None
                    | EmptyString => None
                    end
                end
              else None
          | EmptyString => None
          end
      end
  end.

(** [json.loads(text)]: one value, white space allowed around it, nothing
    else after it.  The length of the text is fuel enough: every nested
    call starts at least one character further. *)
Definition loads (text : string) : option value :=
  match scan_once (S (String.length text)) (skip_ws text) with
  | Some (v, rest) =>
      match skip_ws rest with
      | EmptyString => Some v
      | String _ _ => None
      end
  | None => None
  end.

(** Induction on values, with the items of an array and the members of
    an object as induction hypotheses. *)
Fixpoint value_induction (P : value -> Prop)
    (HNull : P Null) (HStr : forall s, P (Str s))
    (HArr : forall items, Forall P items -> P (Arr items))
    (HObj : forall members,
        Forall (fun kv => P (snd kv)) members -> P (Obj members))
    (v : value) {struct v} : P v :=
  match v with
  | Null => HNull
  | Str s => HStr s
  | Arr items =>
      HArr items
        ((fix all (l : list value) : Forall P l :=
            match l with
            | [] => Forall_nil P
            | x :: xs =>
                Forall_cons x (value_induction P HNull HStr HArr HObj x)
                  (all xs)
            end) items)
  | Obj members =>
      HObj members
        ((fix all (l : list (string * value))
            : Forall (fun kv => P (snd kv)) l :=
            match l with
            | [] => Forall_nil _
            | kv :: xs =>
                Forall_cons kv
                  (value_induction P HNull HStr HArr HObj (snd kv)) (all xs)
            end) members)
  end.

(** Nested calls the decoder makes on the text of a value. *)
Fixpoint cost (v : value) : nat :=
  match v with
  | Null => 1
  | Str _ => 1
  | Arr items => S (fold_right (fun x acc => S (cost x + acc)) 0 items)
  | Obj members =>
      S (fold_right (fun kv acc => S (cost (snd kv) + acc)) 0 members)
  end.

(** [obj[key]] on a decoded object: a [dict] keeps the last value given to
    a key. *)
Fixpoint lookup (key : string) (members : list (string * value))
    : option value :=
  match members with
  | [] => None
  | (k, v) :: rest =>
      match lookup key rest with
      | Some v' => Some v'
      | None => if String.eqb k key then Some v else None
      end
  end.

Definition get (key : string) (v : value) : option value :=
  match v with
  | Obj members => lookup key members
  | _ => None
  end.

End Json.

(* ------------------------------------------------------------------ *)
(** ** Persistence and the command line *)

Section Pipeline.

Variable lib : Lib.
Variable w : World.

(** [save_results(data, output, fmt)] *)
Definition save_results (data : list HeadlineRecord) (output fmt : string)
    : M unit :=
  emit (EvMkdir (path_parent lib output)) ;;;
  if String.eqb fmt "json" then
    emit (EvWrite output (Json.dumps data)) ;;;
    logging INFO ("Results saved to " ++ output)
  else if String.eqb fmt "csv" then
    emit (EvWrite output (to_csv lib data)) ;;;
    logging INFO ("Results saved to " ++ output)
  else
    logging ERROR "Unsupported format. Use 'json' or 'csv'.".

(** The parsed command line. *)
Record Args := mkArgs {
  sources : list string;
  keyword : option string;
  output : string;
  format : string
}.

(** The [for source_entry in args.sources] loop of [main], with
    [all_headlines] as its accumulator. *)
Fixpoint main_loop (entries : list string) (kw : option string)
    (all_headlines : list HeadlineRecord) : M (list HeadlineRecord) :=
  match entries with
  | [] => ret all_headlines
  | source_entry :: rest =>
      if negb (Py.contains_char "=" source_entry) then
        logging WARNING ("Invalid source format: " ++ source_entry) ;;;
        main_loop rest kw all_headlines
      else
        let (name, u) := Py.split1 "=" source_entry in
        data <- scrape_headlines lib w (Py.strip name) (Py.strip u) kw ;;
        main_loop rest kw (all_headlines ++ data)
  end.

(** [main()], after [parse_args]. *)
Definition main (args : Args) : M unit :=
  all_headlines <- main_loop (sources args) (keyword args) [] ;;
  match all_headlines with
  | [] => logging WARNING "No headlines found."
  | _ :: _ => save_results all_headlines (output args) (format args)
  end.

End Pipeline.

(* ------------------------------------------------------------------ *)
(** ** Vocabulary of the properties *)

(** The policy file could not be obtained or read: the download raised,
    the server answered with an HTTP error status, or the body is not
    text. *)
Definition policy_failure (o : UrlopenOutcome) : bool :=
  match o with
  | UrlopenRaises _ => true
  | UrlopenHTTPError _ => true
  | UrlopenBody None => true
  | UrlopenBody (Some _) => false
  end.

(** Where [can_fetch] looks for the policy of a URL. *)
Definition robots_url_of (lib : Lib) (u : string) : string :=
  urljoin lib (base_of u) "robots.txt".

Definition is_get (e : Event) : bool :=
  match e with EvGet _ _ _ => true | _ => false end.

Definition is_sleep (e : Event) : bool :=
  match e with EvSleep _ _ => true | _ => false end.

(** Events that touch the file system. *)
Definition is_persist (e : Event) : bool :=
  match e with EvMkdir _ | EvWrite _ _ => true | _ => false end.

(** The first line [scrape_headlines] logs: one per source processed. *)
Definition is_scrape_start (e : Event) : bool :=
  match e with
  | EvLog INFO msg => String.prefix "Scraping " msg
  | _ => false
  end.

(** The warning [main] logs for a token without [=]. *)
Definition is_invalid_source_warning (e : Event) : bool :=
  match e with
  | EvLog WARNING msg => String.prefix "Invalid source format: " msg
  | _ => false
  end.

Definition count (p : Event -> bool) (l : list Event) : nat :=
  length (filter p l).

(** [needle] occurs in [hay]. *)
Definition substring (needle hay : string) : Prop :=
  exists pre post, hay = (pre ++ needle ++ post)%string.

(** The capital letters below code point 256. *)
Definition capital (c : ascii) : Prop :=
  let n := nat_of_ascii c in
  65 <= n <= 90 \/ 192 <= n <= 214 \/ 216 <= n <= 222.

(** [small] is the small letter of the capital [big]. *)
Definition small_of (big small : ascii) : Prop :=
  capital big /\ nat_of_ascii small = nat_of_ascii big + 32.

(** Two characters that are the same, or the capital and the small form
    of one letter. *)
Definition same_letter (x y : ascii) : Prop :=
  x = y \/ small_of x y \/ small_of y x.

(** Two strings that differ by letter case at most. *)
Fixpoint same_letters (a b : string) : Prop :=
  match a, b with
  | EmptyString, EmptyString => True
  | String x a', String y b' => same_letter x y /\ same_letters a' b'
  | _, _ => False
  end.

(** The white space characters below code point 256: TAB, LF, VT, FF, CR,
    FS, GS, RS, US, SPACE, NEL and NO-BREAK SPACE. *)
Definition white_space (c : ascii) : Prop :=
  In (nat_of_ascii c) [9; 10; 11; 12; 13; 28; 29; 30; 31; 32; 133; 160].

(** A text made of white space only (the empty text is one). *)
Fixpoint blank (s : string) : Prop :=
  match s with
  | EmptyString => True
  | String c r => white_space c /\ blank r
  end.

(** An anchor without visible text: it has no text node, or only blank
    ones. *)
Definition no_visible_text (item : Anchor) : Prop :=
  Forall blank (a_strings item).

(** [needle] occurs in [hay] when letter case is ignored: some piece of
    [hay] is [needle] up to letter case. *)
Definition substring_ci (needle hay : string) : Prop :=
  exists pre mid post,
    hay = (pre ++ mid ++ post)%string /\ same_letters needle mid.

(** A token of [--sources] that has its [=]. *)
Definition well_formed (source_entry : string) : bool :=
  Py.contains_char "=" source_entry.

(** The source a well-formed token names. *)
Definition spec_of (source_entry : string) : string * string :=
  let (name, u) := Py.split1 "=" source_entry in (Py.strip name, Py.strip u).

(** An anchor that gets past [if not title or not link]. *)
Definition has_title_and_link (item : Anchor) : bool :=
  Py.truthy (get_text_strip item) && Py.truthy_opt (a_href item).

(** The records an anchor contributes: none or one. *)
Definition records_of (lib : Lib) (source_name u : string)
    (kw : option string) (item : Anchor) : list HeadlineRecord :=
  match headline_of lib source_name u kw item with
  | Some h => [h]
  | None => []
  end.

(** [scrape_headlines] run on each source in turn, one output per source. *)
Fixpoint scrape_each (lib : Lib) (w : World) (specs : list (string * string))
    (kw : option string) : M (list (list HeadlineRecord)) :=
  match specs with
  | [] => ret []
  | (name, u) :: rest =>
      data <- scrape_headlines lib w name u kw ;;
      others <- scrape_each lib w rest kw ;;
      ret (data :: others)
  end.

(** The three fields compared after a round trip through JSON text. *)
Definition json_fields (v : Json.value)
    : option Json.value * option Json.value * option Json.value :=
  (Json.get "source" v, Json.get "title" v, Json.get "url" v).

Definition headline_fields (h : HeadlineRecord)
    : option Json.value * option Json.value * option Json.value :=
  (Some (Json.Str (source h)), Some (Json.Str (title h)),
   Some (Json.Str (url h))).

(* ------------------------------------------------------------------ *)
(** ** A small concrete setting, to run the script on *)

Module Sample.

(** A link resolver for the links of the pages below: an empty link gives
    the base, a link with a scheme is kept, a link that starts with [/]
    replaces the path of the base, any other link replaces its last
    segment. *)
Definition urljoin (base link : string) : string :=
  match link with
  | EmptyString => base
  | String c _ =>
      if Py.contains "://" link then link
      else if Ascii.eqb c "/" then base_of base ++ link
      else
        let parts := Py.split "/" base in
        if (length parts <=? 3)%nat then base ++ "/" ++ link
        else Py.join "/" (removelast parts) ++ "/" ++ link
  end.

Definition page_tech : string :=
  "<a href=/x>AI breakthrough</a><a href=/y>Sports update</a>".
Definition page_a : string :=
  "<a href=/1>Stocks Rally</a><a> </a><a href=/2> Bond yields </a>".
Definition page_b : string := "<a href=b1.html>Rain</a>".

(** The three pages above, already parsed. *)
Definition BeautifulSoup (text : string) : Result Document :=
  if String.eqb text page_tech then
    Ok (mkDocument [mkAnchor ["AI breakthrough"] (Some "/x");
                    mkAnchor ["Sports update"] (Some "/y")])
  else if String.eqb text page_a then
    Ok (mkDocument [mkAnchor ["Stocks Rally"] (Some "/1");
                    mkAnchor [" "] None;
                    mkAnchor [" Bond yields "] (Some "/2")])
  else if String.eqb text page_b then
    Ok (mkDocument [mkAnchor ["Rain"] (Some "b1.html")])
  else Raise "ParserRejectedMarkup".

(** A rule matcher that knows one policy: [Disallow: /] closes the site. *)
Definition robots_rules (text useragent u : string) : Result bool :=
  Ok (negb (String.eqb text "Disallow: /")).

Definition lib : Lib :=
  mkLib urljoin robots_rules BeautifulSoup (fun _ => "source,title,url,time")
        (fun _ => ".").

Definition pages (u : string) : GetOutcome :=
  if String.eqb u "https://example.com/tech" then GetResponse 200 "OK" page_tech
  else if String.eqb u "https://a.example/news" then GetResponse 200 "OK" page_a
  else if String.eqb u "https://b.example/w/today" then GetResponse 200 "OK" page_b
  else if String.eqb u "https://example.com/gone" then GetResponse 404 "Not Found" ""
  else GetRaises "ConnectionError".

(** Every site publishes an empty policy. *)
Definition open_world : World :=
  mkWorld (fun _ _ => UrlopenBody (Some "")) (fun _ => pages).

(** Every site closes itself to crawlers. *)
Definition closed_world : World :=
  mkWorld (fun _ _ => UrlopenBody (Some "Disallow: /")) (fun _ => pages).

(** No site has a policy file: the request for it is answered 404. *)
Definition world_404 : World :=
  mkWorld (fun _ _ => UrlopenHTTPError 404) (fun _ => pages).

(** The policy files cannot be reached. *)
Definition world_down : World :=
  mkWorld (fun _ _ => UrlopenRaises "timed out") (fun _ => pages).

End Sample.

(* ------------------------------------------------------------------ *)
(** ** More vocabulary *)

Definition is_urlopen (e : Event) : bool :=
  match e with EvUrlopen _ => true | _ => false end.

Definition is_write (e : Event) : bool :=
  match e with EvWrite _ _ => true | _ => false end.

Definition count_one (p : Event -> bool) (e : Event) : nat :=
  if p e then 1 else 0.

Definition first_char (s : string) : option ascii :=
  match s with
  | EmptyString => None
  | String c _ => Some c
  end.

Fixpoint last_char (s : string) : option ascii :=
  match s with
  | EmptyString => None
  | String c EmptyString => Some c
  | String _ r => last_char r
  end.

(** A text that is not empty and neither starts nor ends with white
    space. *)
Definition trimmed (s : string) : Prop :=
  (exists c, first_char s = Some c /\ Py.isspace c = false)
  /\ (exists c, last_char s = Some c /\ Py.isspace c = false).

(** A text that is not empty and whose first and last characters are
    not white space. *)
Definition no_outer_white_space (s : string) : Prop :=
  (exists c, first_char s = Some c /\ ~ white_space c)
  /\ (exists c, last_char s = Some c /\ ~ white_space c).

(** In a list of events, every delay comes right after a page request;
    [after_get] tells whether the event before the list was one. *)
Fixpoint delays_follow_requests (after_get : bool) (l : list Event) : bool :=
  match l with
  | [] => true
  | e :: r =>
      (if is_sleep e then after_get else true)
      && delays_follow_requests (is_get e) r
  end.


(* ------------------------------------------------------------------ *)
(** ** [send_emails.py]: one mail, with retries *)

Module SendEmail.

(** What [send_email] does, as seen from outside. *)
Inductive Event :=
| EvTry (attempt : Z)                  (* the [try] block is entered *)
| EvLog (lvl : Level) (msg : string)
| EvSleep (seconds : Z).               (* time.sleep(seconds) *)

(** How the [try] block ends at each attempt: the message is built, the
    attachment read, the SMTP session opened, logged in and used; [Raise]
    when any of this raises. *)
Definition Smtp : Type := Z -> Result unit.

(** [str(i)] for an integer. *)
Definition str_of_int (i : Z) : string :=
  if (i <? 0)%Z then "-" ++ Py.str_of_nat (Z.to_nat (- i))
  else Py.str_of_nat (Z.to_nat i).

(** The [for attempt in range(1, retries + 1)] loop, from [attempt] on
    with [left] turns to go: [true] when a turn returned [True]. *)
Fixpoint attempts (smtp : Smtp) (recipient_email : string) (attempt : Z)
    (left : nat) : bool * list Event :=
  match left with
  | 0 => (false, [])
  | S left' =>
      match smtp attempt with
      | Ok _ =>
          (true,
           [EvTry attempt;
            EvLog INFO ("✅ Email sent to " ++ recipient_email)])
      | Raise e =>
          let (sent, ev) :=
            attempts smtp recipient_email (attempt + 1) left' in
          (sent,
           EvTry attempt
           :: EvLog WARNING ("Attempt " ++ str_of_int attempt ++ " failed for "
                             ++ recipient_email ++ ": " ++ e)
           :: EvSleep (2 * attempt)
           :: ev)
      end
  end.

(** [send_email(..., recipient_email, ..., retries)] *)
Definition send_email (smtp : Smtp) (recipient_email : string) (retries : Z)
    : bool * list Event :=
  let (sent, ev) := attempts smtp recipient_email 1 (Z.to_nat retries) in
  if sent then (true, ev)
  else
    (false,
     ev ++ [EvLog ERROR ("❌ Failed to send email to " ++ recipient_email
                         ++ " after " ++ str_of_int retries ++ " attempts")]).

(** The attempts made, in order. *)
Definition tries (ev : list Event) : list Z :=
  flat_map (fun e => match e with EvTry a => [a] | _ => [] end) ev.

(** The pauses made, in order. *)
Definition sleeps (ev : list Event) : list Z :=
  flat_map (fun e => match e with EvSleep s => [s] | _ => [] end) ev.

Definition is_error (e : Event) : bool :=
  match e with EvLog ERROR _ => true | _ => false end.

(** Sum of a list of durations. *)
Definition total (l : list Z) : Z := fold_right Z.add 0%Z l.

(** The attempt numbers [from], [from + 1], ... ([count] of them). *)
Fixpoint numbers (from : Z) (count : nat) : list Z :=
  match count with
  | 0 => []
  | S c => from :: numbers (from + 1) c
  end.

End SendEmail.

(* ------------------------------------------------------------------ *)
(** ** [csv_to_xlsx.py]: the column names of [clean_data] *)

Module CsvToXlsx.

(** [s.replace(old, new)] for one-character [old] and [new]. *)
Fixpoint replace_char (old new : ascii) (s : string) : string :=
  match s with
  | EmptyString => EmptyString
  | String c r =>
      String (if Ascii.eqb c old then new else c) (replace_char old new r)
  end.

(** [col.strip().lower().replace(" ", "_")] *)
Definition normalize_column (col : string) : string :=
  replace_char " " "_" (Py.lower (Py.strip col)).

(** [df.columns = [... for col in df.columns]] *)
Definition normalize_columns (columns : list string) : list string :=
  map normalize_column columns.

(** ["date" in col.lower()]: the columns given to [pd.to_datetime]. *)
Definition is_date_column (col : string) : bool :=
  Py.contains "date" (Py.lower col).

Definition is_upper (c : ascii) : bool :=
  let n := nat_of_ascii c in ((65 <=? n) && (n <=? 90))%nat.

End CsvToXlsx.

(* ------------------------------------------------------------------ *)
(** ** Running computations *)

Ltac run :=
  unfold bind, ret, emit, logging, network; simpl.

(** Case analysis on whatever the goal branches on first. *)
Ltac branch :=
  match goal with
  | |- context [match ?x with _ => _ end] =>
      lazymatch x with
      | context [match _ with _ => _ end] => fail
      | _ => destruct x eqn:?; simpl
      end
  end.

Lemma count_app (p : Event -> bool) (a b : list Event) :
  count p (a ++ b) = count p a + count p b.
Proof.
  unfold count. rewrite filter_app, length_app. reflexivity.
Qed.

Lemma count_zero_Forall (p : Event -> bool) (l : list Event) :
  count p l = 0 <-> Forall (fun e => p e = false) l.
Proof.
  unfold count. induction l as [|e l IH]; simpl.
  - split; auto.
  - destruct (p e) eqn:E; simpl.
    + split; [discriminate | intros H; inversion H; congruence].
    + rewrite IH. split; [auto | intros H; inversion H; auto].
Qed.

(* ------------------------------------------------------------------ *)
(** ** The policy gate *)

Section PolicyGate.

Variable lib : Lib.
Variable w : World.

(** [can_fetch] makes one network call: the download of the policy. *)
Lemma can_fetch_calls (u ua : string) (n : nat) :
  calls (can_fetch lib w u ua n) = S n.
Proof.
  unfold can_fetch, RobotFileParser.read, RobotFileParser.can_fetch. run.
  repeat branch; reflexivity.
Qed.

(** What [can_fetch] does is download the policy and, when that goes
    wrong, log one warning. *)
Lemma can_fetch_events (u ua : string) (n : nat) :
  events (can_fetch lib w u ua n) = [EvUrlopen (robots_url_of lib u)]
  \/ exists e,
      events (can_fetch lib w u ua n) =
      [EvUrlopen (robots_url_of lib u);
       EvLog WARNING ("Could not read robots.txt for " ++ base_of u ++ ": " ++ e)].
Proof.
  unfold can_fetch, RobotFileParser.read, robots_url_of. run.
  unfold RobotFileParser.can_fetch.
  repeat branch;
    solve [left; reflexivity | right; eexists; reflexivity].
Qed.

Lemma can_fetch_no_get (u ua : string) (n : nat) :
  count is_get (events (can_fetch lib w u ua n)) = 0.
Proof.
  destruct (can_fetch_events u ua n) as [E|[e E]]; rewrite E; reflexivity.
Qed.

Lemma can_fetch_no_sleep (u ua : string) (n : nat) :
  count is_sleep (events (can_fetch lib w u ua n)) = 0.
Proof.
  destruct (can_fetch_events u ua n) as [E|[e E]]; rewrite E; reflexivity.
Qed.

Lemma can_fetch_no_persist (u ua : string) (n : nat) :
  count is_persist (events (can_fetch lib w u ua n)) = 0.
Proof.
  destruct (can_fetch_events u ua n) as [E|[e E]]; rewrite E; reflexivity.
Qed.

Lemma can_fetch_no_scrape_start (u ua : string) (n : nat) :
  count is_scrape_start (events (can_fetch lib w u ua n)) = 0.
Proof.
  destruct (can_fetch_events u ua n) as [E|[e E]]; rewrite E; reflexivity.
Qed.

Lemma can_fetch_no_invalid_warning (u ua : string) (n : nat) :
  count is_invalid_source_warning (events (can_fetch lib w u ua n)) = 0.
Proof.
  destruct (can_fetch_events u ua n) as [E|[e E]]; rewrite E; reflexivity.
Qed.

(** The decision, read off the answer to the policy download. *)
Lemma can_fetch_value (u ua : string) (n : nat) :
  value (can_fetch lib w u ua n) =
  match urlopen w n (robots_url_of lib u) with
  | UrlopenRaises _ => false
  | UrlopenHTTPError code =>
      if (code =? 401)%Z || (code =? 403)%Z then false
      else (400 <=? code)%Z && (code <? 500)%Z
  | UrlopenBody None => false
  | UrlopenBody (Some text) =>
      match robots_rules lib text ua u with
      | Ok b => b
      | Raise _ => false
      end
  end.
Proof.
  unfold can_fetch, RobotFileParser.read, robots_url_of. run.
  unfold RobotFileParser.can_fetch.
  destruct (urlopen w n _) as [msg|code|[text|]]; simpl; try reflexivity.
  - destruct ((code =? 401)%Z || (code =? 403)%Z); simpl; [reflexivity|].
    destruct ((400 <=? code)%Z && (code <? 500)%Z); simpl; reflexivity.
  - destruct (robots_rules lib text ua u); reflexivity.
Qed.

End PolicyGate.

(* ------------------------------------------------------------------ *)
(** ** The fetcher *)

Arguments can_fetch : simpl never.
Arguments fetch_html_try : simpl never.

Section Fetcher.

Variable lib : Lib.
Variable w : World.

(** A denied URL: the skip is logged and nothing else happens. *)
Lemma fetch_html_denied (u : string) (n : nat) :
  value (can_fetch lib w u default_user_agent n) = false ->
  fetch_html lib w u n =
  mkRun None
    (events (can_fetch lib w u default_user_agent n)
     ++ [EvLog WARNING ("Skipping " ++ u ++ " due to robots.txt restrictions.")])
    (calls (can_fetch lib w u default_user_agent n)).
Proof.
  intros H. unfold fetch_html, bind. rewrite H. reflexivity.
Qed.

(** An allowed URL: the [try] block runs, and the [except] clause logs
    what it raised. *)
Lemma fetch_html_allowed (u : string) (n : nat) :
  value (can_fetch lib w u default_user_agent n) = true ->
  fetch_html lib w u n =
  let gate := can_fetch lib w u default_user_agent n in
  let t := fetch_html_try lib w u (calls gate) in
  mkRun (match value t with Ok soup => Some soup | Raise _ => None end)
    (events gate ++ events t
     ++ match value t with
        | Ok _ => []
        | Raise e => [EvLog ERROR ("Failed to fetch " ++ u ++ ": " ++ e)]
        end)
    (calls t).
Proof.
  intros H. unfold fetch_html, bind. rewrite H. cbn [negb].
  destruct (value (fetch_html_try lib w u _)); cbn -[can_fetch fetch_html_try];
    rewrite ?app_nil_r; reflexivity.
Qed.

(** The three ways through the [try] block that end in an exception, and
    the one that does not. *)
Lemma fetch_html_try_cases (u : string) (n : nat) :
  (value (fetch_html_try lib w u n) = BeautifulSoup lib
     match requests_get w n u with
     | GetResponse _ _ text => text
     | GetRaises _ => ""
     end
   /\ events (fetch_html_try lib w u n) =
      [EvGet u request_user_agent 10; EvSleep 1 3]
   /\ exists st reason text,
        requests_get w n u = GetResponse st reason text
        /\ raise_for_status st reason u = Ok tt)
  \/ ((exists e, value (fetch_html_try lib w u n) = Raise e)
      /\ events (fetch_html_try lib w u n) = [EvGet u request_user_agent 10]
      /\ ((exists e, requests_get w n u = GetRaises e)
          \/ exists st reason text e,
               requests_get w n u = GetResponse st reason text
               /\ raise_for_status st reason u = Raise e)).
Proof.
  unfold fetch_html_try. run.
  destruct (requests_get w n u) as [e|st reason text]; simpl.
  - right. repeat split; eauto.
  - destruct (raise_for_status st reason u) as [[]|e] eqn:E; simpl.
    + left. repeat split; eauto.
    + right. repeat split; eauto. right. exists st, reason, text, e. auto.
Qed.

Lemma raise_for_status_raises (st : Z) (reason u : string) :
  (400 <= st < 600)%Z <-> exists e, raise_for_status st reason u = Raise e.
Proof.
  unfold raise_for_status.
  destruct ((400 <=? st)%Z && (st <? 500)%Z) eqn:A;
    [|destruct ((500 <=? st)%Z && (st <? 600)%Z) eqn:B].
  - split; [eauto | intros _; lia].
  - split; [eauto | intros _; lia].
  - split; [intros H; exfalso; lia | intros [e H]; discriminate].
Qed.

Lemma fetch_html_try_calls (u : string) (n : nat) :
  calls (fetch_html_try lib w u n) = S n.
Proof.
  unfold fetch_html_try. run. repeat branch; reflexivity.
Qed.

(** [fetch_html] makes one network call when the URL is denied and two
    when it is allowed. *)
Lemma fetch_html_calls (u : string) (n : nat) :
  calls (fetch_html lib w u n) =
  if value (can_fetch lib w u default_user_agent n) then S (S n) else S n.
Proof.
  destruct (value (can_fetch lib w u default_user_agent n)) eqn:G.
  - rewrite fetch_html_allowed by assumption. cbv zeta. cbn [calls].
    rewrite fetch_html_try_calls, can_fetch_calls. reflexivity.
  - rewrite fetch_html_denied by assumption. simpl.
    apply can_fetch_calls.
Qed.

(** The events of [fetch_html], whatever happens: the policy download,
    then either the skip warning, or the page request followed by the
    delay, by an error line, or by both. *)
Lemma fetch_html_events (u : string) (n : nat) :
  exists tail,
    events (fetch_html lib w u n) =
    events (can_fetch lib w u default_user_agent n) ++ tail
    /\ ((value (can_fetch lib w u default_user_agent n) = false
         /\ tail = [EvLog WARNING
                      ("Skipping " ++ u ++ " due to robots.txt restrictions.")])
        \/ (value (can_fetch lib w u default_user_agent n) = true
            /\ (tail = [EvGet u request_user_agent 10; EvSleep 1 3]
                \/ (exists e,
                      tail = [EvGet u request_user_agent 10; EvSleep 1 3;
                              EvLog ERROR ("Failed to fetch " ++ u ++ ": " ++ e)])
                \/ (exists e,
                      tail = [EvGet u request_user_agent 10;
                              EvLog ERROR ("Failed to fetch " ++ u ++ ": " ++ e)])))).
Proof.
  destruct (value (can_fetch lib w u default_user_agent n)) eqn:G.
  - rewrite fetch_html_allowed by assumption. cbv zeta. cbn [events].
    eexists. split; [reflexivity|]. right. split; [reflexivity|].
    destruct (fetch_html_try_cases u (calls (can_fetch lib w u default_user_agent n)))
      as [(V & E & _)|([e V] & E & _)]; rewrite E.
    + destruct (value (fetch_html_try lib w u _)); simpl; eauto.
    + rewrite V. simpl. eauto.
  - rewrite fetch_html_denied by assumption. simpl.
    eexists. split; [reflexivity|]. left. auto.
Qed.

End Fetcher.

Arguments fetch_html : simpl never.

(** C1, as stated, fails: a policy request answered with status 404 is a
    failed fetch of the policy file, and [can_fetch] allows the URL. *)
Lemma can_fetch_allows_when_policy_is_404 :
  policy_failure
    (urlopen Sample.world_404 0
       (robots_url_of Sample.lib "https://example.com/tech")) = true
  /\ value (can_fetch Sample.lib Sample.world_404 "https://example.com/tech"
              default_user_agent 0) = true.
Proof.
  split; reflexivity.
Qed.

(** C1 (amended): [can_fetch] returns [False] whenever reading the policy
    raises (the download fails with something else than an HTTP error, the
    body is not valid UTF-8, the rule lookup raises) and whenever the
    download is answered by HTTP 401, 403, or an error status outside
    400..499; an HTTP status in 400..499 other than 401 and 403 resolves
    to allow; and a policy text that can be decoded is decided by the
    rules the parser reads in it. *)
Theorem can_fetch_policy_failure (lib : Lib) (w : World) (u ua : string)
    (n : nat) :
  let o := urlopen w n (robots_url_of lib u) in
  (((exists e, o = UrlopenRaises e)
    \/ o = UrlopenBody None
    \/ (exists text e,
          o = UrlopenBody (Some text) /\ robots_rules lib text ua u = Raise e)
    \/ (exists code,
          o = UrlopenHTTPError code
          /\ (code = 401 \/ code = 403 \/ code < 400 \/ 500 <= code)%Z))
   -> value (can_fetch lib w u ua n) = false)
  /\ (forall code,
        o = UrlopenHTTPError code ->
        (400 <= code < 500)%Z -> code <> 401%Z -> code <> 403%Z ->
        value (can_fetch lib w u ua n) = true)
  /\ (forall text b,
        o = UrlopenBody (Some text) ->
        robots_rules lib text ua u = Ok b ->
        value (can_fetch lib w u ua n) = b).
Proof.
  cbv zeta. rewrite can_fetch_value. split; [|split].
  - intros [[e H]|[H|[(text & e & H & R)|(code & H & C)]]]; rewrite H;
      try reflexivity.
    + rewrite R. reflexivity.
    + destruct ((code =? 401)%Z || (code =? 403)%Z) eqn:A; [reflexivity|].
      apply orb_false_iff in A. destruct A as [A1 A2].
      apply Z.eqb_neq in A1, A2.
      apply andb_false_iff.
      destruct C as [C|[C|[C|C]]]; try contradiction;
        [left; apply Z.leb_gt | right; apply Z.ltb_ge]; lia.
  - intros code H C N1 N3. rewrite H.
    apply Z.eqb_neq in N1, N3. rewrite N1, N3. simpl.
    apply andb_true_iff. split; [apply Z.leb_le | apply Z.ltb_lt]; lia.
  - intros text b H R. rewrite H, R. reflexivity.
Qed.

Lemma can_fetch_policy_failure_witness :
  value (can_fetch Sample.lib Sample.world_down "https://example.com/tech"
           default_user_agent 0) = false
  /\ value (can_fetch Sample.lib Sample.world_404 "https://example.com/tech"
              default_user_agent 0) = true
  /\ value (can_fetch Sample.lib Sample.closed_world
              "https://example.com/tech" default_user_agent 0) = false.
Proof.
  split; [|split].
  - apply (proj1 (can_fetch_policy_failure Sample.lib Sample.world_down
                    "https://example.com/tech" default_user_agent 0)).
    left. exists "timed out". reflexivity.
  - apply (proj1 (proj2 (can_fetch_policy_failure Sample.lib Sample.world_404
                           "https://example.com/tech" default_user_agent 0))
             404%Z).
    + reflexivity.
    + lia.
    + discriminate.
    + discriminate.
  - apply (proj2 (proj2 (can_fetch_policy_failure Sample.lib
                           Sample.closed_world "https://example.com/tech"
                           default_user_agent 0))
             "Disallow: /" false); reflexivity.
Defined.

(** C2: when the policy gate denies a URL, [fetch_html] returns [None],
    sends no page request at all, and the last thing it does is log the
    skip. *)
Theorem fetch_html_denied_sends_no_request (lib : Lib) (w : World)
    (u : string) (n : nat) :
  value (can_fetch lib w u default_user_agent n) = false ->
  value (fetch_html lib w u n) = None
  /\ count is_get (events (fetch_html lib w u n)) = 0
  /\ events (fetch_html lib w u n) =
     events (can_fetch lib w u default_user_agent n)
     ++ [EvLog WARNING ("Skipping " ++ u ++ " due to robots.txt restrictions.")].
Proof.
  intros H. rewrite (fetch_html_denied lib w u n H). cbn [value events].
  repeat split.
  rewrite count_app, can_fetch_no_get. reflexivity.
Qed.

Lemma fetch_html_denied_sends_no_request_witness :
  value (fetch_html Sample.lib Sample.closed_world
           "https://example.com/tech" 0) = None
  /\ count is_get (events (fetch_html Sample.lib Sample.closed_world
                             "https://example.com/tech" 0)) = 0
  /\ events (fetch_html Sample.lib Sample.closed_world
               "https://example.com/tech" 0) =
     events (can_fetch Sample.lib Sample.closed_world
               "https://example.com/tech" default_user_agent 0)
     ++ [EvLog WARNING
           "Skipping https://example.com/tech due to robots.txt restrictions."].
Proof.
  apply (fetch_html_denied_sends_no_request Sample.lib Sample.closed_world
           "https://example.com/tech" 0).
  reflexivity.
Defined.

(** C8: the politeness delay, [time.sleep(random.uniform(1, 3))], happens
    exactly once when [fetch_html] returns a document, after the page
    request and as the last action before returning; it does not happen
    when the request raises (timeout, network error) or is answered with
    an error status (400..599), nor when the URL is denied; and no run of
    [fetch_html] sleeps twice or for anything but that draw. *)
Theorem politeness_delay (lib : Lib) (w : World) (u : string) (n : nat) :
  let r := fetch_html lib w u n in
  let gate := can_fetch lib w u default_user_agent n in
  (forall soup,
     value r = Some soup ->
     events r = events gate ++ [EvGet u request_user_agent 10; EvSleep 1 3]
     /\ count is_sleep (events r) = 1)
  /\ (value gate = true ->
      (exists e, requests_get w (calls gate) u = GetRaises e)
      \/ (exists st reason text,
            requests_get w (calls gate) u = GetResponse st reason text
            /\ (400 <= st < 600)%Z) ->
      value r = None /\ count is_sleep (events r) = 0)
  /\ (value gate = false -> count is_sleep (events r) = 0)
  /\ count is_sleep (events r) <= 1
  /\ Forall (fun e => is_sleep e = true -> e = EvSleep 1 3) (events r).
Proof.
  cbv zeta.
  pose proof (can_fetch_no_sleep lib w u default_user_agent n) as NS.
  assert (NF : Forall (fun e => is_sleep e = true -> e = EvSleep 1 3)
                 (events (can_fetch lib w u default_user_agent n))).
  { apply count_zero_Forall in NS. eapply Forall_impl; [|exact NS].
    simpl. intros e H1 H2. congruence. }
  destruct (value (can_fetch lib w u default_user_agent n)) eqn:G.
  - rewrite (fetch_html_allowed lib w u n G). cbv zeta. cbn [value events].
    destruct (fetch_html_try_cases lib w u
                (calls (can_fetch lib w u default_user_agent n)))
      as [(V & E & st & reason & text & Q & S)
         |([e V] & E & Q)]; rewrite E.
    + split; [|split; [|split; [|split]]].
      * intros soup H.
        destruct (value (fetch_html_try lib w u _)); [|discriminate].
        rewrite app_nil_r, !count_app, NS. split; reflexivity.
      * intros _ [[e H]|(st' & reason' & text' & H & R)];
          rewrite Q in H; [discriminate|].
        injection H as -> -> ->.
        apply (raise_for_status_raises st' reason' u) in R.
        destruct R as [e R]. congruence.
      * discriminate.
      * rewrite !count_app, NS.
        destruct (value (fetch_html_try lib w u _)); unfold count; simpl; lia.
      * apply Forall_app. split; [exact NF|].
        destruct (value (fetch_html_try lib w u _));
          repeat constructor; simpl; intros; discriminate.
    + rewrite V. split; [|split; [|split; [|split]]].
      * discriminate.
      * intros _ _. rewrite !count_app, NS. split; reflexivity.
      * discriminate.
      * rewrite !count_app, NS. unfold count; simpl. lia.
      * apply Forall_app. split; [exact NF|].
        repeat constructor; simpl; intros; discriminate.
  - rewrite (fetch_html_denied lib w u n G). cbn [value events].
    split; [|split; [|split; [|split]]].
    + discriminate.
    + discriminate.
    + intros _. rewrite count_app, NS. reflexivity.
    + rewrite count_app, NS. unfold count; simpl. lia.
    + apply Forall_app. split; [exact NF|].
      repeat constructor. simpl. intros; discriminate.
Qed.

Lemma politeness_delay_witness :
  count is_sleep
    (events (fetch_html Sample.lib Sample.open_world
               "https://example.com/tech" 0)) = 1
  /\ count is_sleep
       (events (fetch_html Sample.lib Sample.open_world
                  "https://example.com/gone" 0)) = 0
  /\ count is_sleep
       (events (fetch_html Sample.lib Sample.open_world
                  "https://nowhere.example/" 0)) = 0
  /\ count is_sleep
       (events (fetch_html Sample.lib Sample.closed_world
                  "https://example.com/tech" 0)) = 0.
Proof.
  split; [|split; [|split]].
  - eapply (proj1 (politeness_delay Sample.lib Sample.open_world
                     "https://example.com/tech" 0)).
    reflexivity.
  - apply (proj1 (proj2 (politeness_delay Sample.lib Sample.open_world
                           "https://example.com/gone" 0))).
    + reflexivity.
    + right. exists 404%Z, "Not Found", "". split; [reflexivity | lia].
  - apply (proj1 (proj2 (politeness_delay Sample.lib Sample.open_world
                           "https://nowhere.example/" 0))).
    + reflexivity.
    + left. exists "ConnectionError". reflexivity.
  - apply (proj1 (proj2 (proj2 (politeness_delay Sample.lib Sample.closed_world
                                  "https://example.com/tech" 0)))).
    reflexivity.
Defined.

(** C10: the policy is consulted for the agent ["*"], the page is requested
    as ["Mozilla/5.0 (NewsScraperBot)"], and the two differ: [fetch_html]
    starts with [can_fetch] run for ["*"], sends its one request exactly
    when that call allows it, and every request it sends carries the other
    agent; when the policy text is read, it is the rule lookup for ["*"]
    that decides. *)
Theorem policy_agent_is_not_request_agent (lib : Lib) (w : World)
    (u : string) (n : nat) :
  let r := fetch_html lib w u n in
  let gate := can_fetch lib w u "*" n in
  default_user_agent = "*"
  /\ request_user_agent = "Mozilla/5.0 (NewsScraperBot)"
  /\ default_user_agent <> request_user_agent
  /\ (exists tail, events r = events gate ++ tail)
  /\ count is_get (events r) = (if value gate then 1 else 0)
  /\ Forall (fun e => is_get e = true ->
                      e = EvGet u "Mozilla/5.0 (NewsScraperBot)" 10) (events r)
  /\ (forall text b,
        urlopen w n (robots_url_of lib u) = UrlopenBody (Some text) ->
        robots_rules lib text "*" u = Ok b ->
        value gate = b
        /\ (b = true <->
            In (EvGet u "Mozilla/5.0 (NewsScraperBot)" 10) (events r))).
Proof.
  cbv zeta. change "*" with default_user_agent.
  change "Mozilla/5.0 (NewsScraperBot)" with request_user_agent.
  pose proof (can_fetch_no_get lib w u default_user_agent n) as NG.
  assert (NF : Forall (fun e => is_get e = true ->
                               e = EvGet u request_user_agent 10)
                 (events (can_fetch lib w u default_user_agent n))).
  { apply count_zero_Forall in NG. eapply Forall_impl; [|exact NG].
    simpl. intros e H1 H2. congruence. }
  assert (CNT : count is_get (events (fetch_html lib w u n)) =
                if value (can_fetch lib w u default_user_agent n) then 1 else 0).
  { destruct (fetch_html_events lib w u n)
      as (tail & E & [[G T]|[G [T|[[e T]|[e T]]]]]);
      rewrite E, count_app, NG, G, T; reflexivity. }
  split; [reflexivity|]. split; [reflexivity|]. split; [discriminate|].
  split; [|split; [exact CNT|split]].
  - destruct (fetch_html_events lib w u n) as (tail & E & _). eauto.
  - destruct (fetch_html_events lib w u n)
      as (tail & E & [[G T]|[G [T|[[e T]|[e T]]]]]);
      rewrite E, T; apply Forall_app; split; try exact NF;
      repeat constructor; simpl; intros; try discriminate; reflexivity.
  - intros text b O R.
    assert (V : value (can_fetch lib w u default_user_agent n) = b).
    { rewrite can_fetch_value, O, R. reflexivity. }
    split; [exact V|].
    rewrite V in CNT. split.
    + intros ->.
      assert (L : filter is_get (events (fetch_html lib w u n)) <> []).
      { intros Z. unfold count in CNT. rewrite Z in CNT. discriminate. }
      destruct (filter is_get (events (fetch_html lib w u n))) as [|e l] eqn:F;
        [congruence|].
      assert (I : In e (filter is_get (events (fetch_html lib w u n)))).
      { rewrite F. left. reflexivity. }
      apply filter_In in I. destruct I as [I G].
      assert (A : Forall (fun e => is_get e = true ->
                                   e = EvGet u request_user_agent 10)
                    (events (fetch_html lib w u n))).
      { destruct (fetch_html_events lib w u n)
          as (tail & E & [[G' T]|[G' [T|[[e' T]|[e' T]]]]]);
          rewrite E, T; apply Forall_app; split; try exact NF;
          repeat constructor; simpl; intros; try discriminate; reflexivity. }
      rewrite Forall_forall in A. rewrite <- (A e I G). exact I.
    + intros I. destruct b; [reflexivity|].
      apply count_zero_Forall in CNT. rewrite Forall_forall in CNT.
      specialize (CNT _ I). discriminate.
Qed.

Lemma policy_agent_is_not_request_agent_witness :
  value (can_fetch Sample.lib Sample.open_world "https://example.com/tech"
           "*" 0) = true
  /\ In (EvGet "https://example.com/tech" "Mozilla/5.0 (NewsScraperBot)" 10)
        (events (fetch_html Sample.lib Sample.open_world
                   "https://example.com/tech" 0)).
Proof.
  destruct (proj2 (proj2 (proj2 (proj2 (proj2 (proj2
              (policy_agent_is_not_request_agent Sample.lib Sample.open_world
                 "https://example.com/tech" 0))))))
              "" true eq_refl eq_refl) as [V [I _]].
  split; [exact V | exact (I eq_refl)].
Defined.

(* ------------------------------------------------------------------ *)
(** ** Strings *)

Lemma truthy_true (s : string) : Py.truthy s = true <-> s <> "".
Proof.
  destruct s; simpl; split; congruence.
Qed.

Lemma truthy_false (s : string) : Py.truthy s = false <-> s = "".
Proof.
  destruct s; simpl; split; congruence.
Qed.

Lemma prefix_spec (a b : string) :
  String.prefix a b = true <-> exists post, b = (a ++ post)%string.
Proof.
  revert b. induction a as [|c a IH]; intros b; simpl.
  - split; [intros _; exists b; reflexivity | intros _; destruct b; reflexivity].
  - destruct b as [|d b]; simpl.
    + split; [discriminate | intros [post H]; discriminate].
    + destruct (ascii_dec c d) as [->|N].
      * rewrite IH. split; intros [post H]; exists post; congruence.
      * split; [discriminate | intros [post H]; congruence].
Qed.

(** Python's [in] on strings is the substring relation. *)
Lemma contains_spec (needle hay : string) :
  Py.contains needle hay = true <-> substring needle hay.
Proof.
  unfold substring. induction hay as [|c r IH].
  - cbn [Py.contains]. destruct (String.prefix needle "") eqn:P.
    + split; [intros _|reflexivity].
      apply prefix_spec in P. destruct P as [post P].
      exists "", post. exact P.
    + split; [discriminate|]. intros (pre & post & H).
      destruct pre; [|discriminate]. simpl in H.
      assert (Q : String.prefix needle "" = true)
        by (apply prefix_spec; eauto).
      congruence.
  - cbn [Py.contains]. destruct (String.prefix needle (String c r)) eqn:P.
    + split; [intros _|reflexivity].
      apply prefix_spec in P. destruct P as [post P].
      exists "", post. exact P.
    + rewrite IH. split.
      * intros (pre & post & H). exists (String c pre), post.
        simpl. congruence.
      * intros (pre & post & H). destruct pre as [|d pre].
        -- simpl in H.
           assert (Q : String.prefix needle (String c r) = true)
             by (apply prefix_spec; eauto).
           congruence.
        -- simpl in H. injection H as _ H. eauto.
Qed.

(* ------------------------------------------------------------------ *)
(** ** The extractor *)

Section Extractor.

Variable lib : Lib.
Variable source_name u : string.
Variable kw : option string.

(** The loop appends, in document order, what each anchor contributes. *)
Lemma scrape_items_flat_map (items : list Anchor) (acc : list HeadlineRecord) :
  scrape_items lib source_name u kw items acc =
  acc ++ flat_map (records_of lib source_name u kw) items.
Proof.
  revert acc. induction items as [|item rest IH]; intros acc; simpl.
  - rewrite app_nil_r. reflexivity.
  - unfold records_of at 1.
    destruct (headline_of lib source_name u kw item) as [h|].
    + rewrite IH, <- app_assoc. reflexivity.
    + apply IH.
Qed.

(** A turn of the loop that appends, appends this. *)
Lemma headline_of_Some (item : Anchor) (h : HeadlineRecord) :
  headline_of lib source_name u kw item = Some h ->
  exists link,
    a_href item = Some link /\ link <> ""
    /\ get_text_strip item <> ""
    /\ keyword_rejects kw (get_text_strip item) = false
    /\ h = mkHeadline source_name (get_text_strip item) (urljoin lib u link) None.
Proof.
  unfold headline_of.
  destruct (Py.truthy (get_text_strip item)) eqn:T; simpl; [|discriminate].
  destruct (a_href item) as [link|]; simpl; [|discriminate].
  destruct (Py.truthy link) eqn:L; simpl; [|discriminate].
  destruct (keyword_rejects kw (get_text_strip item)) eqn:K; [discriminate|].
  intros H. injection H as <-. exists link.
  apply truthy_true in T, L. auto.
Qed.


(** An anchor without a title or without a link does not. *)
Lemma headline_of_invalid (item : Anchor) :
  get_text_strip item = "" \/ a_href item = None \/ a_href item = Some "" ->
  headline_of lib source_name u kw item = None.
Proof.
  unfold headline_of. intros [H|[H|H]]; rewrite H; simpl.
  - reflexivity.
  - rewrite orb_true_r. reflexivity.
  - rewrite orb_true_r. reflexivity.
Qed.

End Extractor.

Lemma lower_app (a b : string) :
  Py.lower (a ++ b) = (Py.lower a ++ Py.lower b)%string.
Proof.
  induction a as [|c a IH]; simpl; congruence.
Qed.

(** [lower_char] sends a capital to its small letter and leaves a small
    letter alone. *)
Lemma lower_char_small_of (big small : ascii) :
  small_of big small ->
  Py.lower_char big = small /\ Py.lower_char small = small.
Proof.
  unfold small_of, capital. intros [C E].
  apply (f_equal ascii_of_nat) in E. rewrite ascii_nat_embedding in E.
  subst small.
  destruct big as [[] [] [] [] [] [] [] []];
    vm_compute in C;
    first [ exfalso; lia
          | split; reflexivity ].
Qed.

(** [lower_char] changes nothing but capitals. *)
Lemma lower_char_cases (x : ascii) :
  Py.lower_char x = x \/ small_of x (Py.lower_char x).
Proof.
  unfold small_of, capital.
  destruct x as [[] [] [] [] [] [] [] []];
    first [ left; reflexivity | right; vm_compute; lia ].
Qed.

(** Two characters are lowered to the same character exactly when they
    are the same letter. *)
Lemma same_letter_lower (x y : ascii) :
  same_letter x y <-> Py.lower_char x = Py.lower_char y.
Proof.
  unfold same_letter. split.
  - intros [->|[H|H]]; [reflexivity| |];
      apply lower_char_small_of in H; destruct H as [A B]; congruence.
  - intros E.
    destruct (lower_char_cases x) as [X|X], (lower_char_cases y) as [Y|Y].
    + left. congruence.
    + right. right. rewrite <- E, X in Y. exact Y.
    + right. left. rewrite E, Y in X. exact X.
    + left. destruct X as [_ X], Y as [_ Y]. rewrite E in X.
      assert (N : nat_of_ascii x = nat_of_ascii y) by lia.
      apply (f_equal ascii_of_nat) in N.
      rewrite !ascii_nat_embedding in N. exact N.
Qed.

Lemma same_letters_lower (a b : string) :
  same_letters a b <-> Py.lower a = Py.lower b.
Proof.
  revert b. induction a as [|x a IH]; intros [|y b]; cbn [same_letters Py.lower].
  - tauto.
  - split; [contradiction | discriminate].
  - split; [contradiction | discriminate].
  - rewrite IH, same_letter_lower. split.
    + intros [H1 H2]. congruence.
    + intros H. injection H as H1 H2. auto.
Qed.

(** A lowered string cut in two is a string cut in two, lowered. *)
Lemma lower_split (t x y : string) :
  Py.lower t = (x ++ y)%string ->
  exists a b, t = (a ++ b)%string /\ Py.lower a = x /\ Py.lower b = y.
Proof.
  revert t. induction x as [|c x IH]; intros t H.
  - exists "", t. auto.
  - destruct t as [|d t]; [discriminate|].
    cbn [Py.lower append] in H. injection H as H1 H2.
    destruct (IH t H2) as (a & b & -> & A & B).
    exists (String d a), b. cbn [Py.lower append]. repeat split; congruence.
Qed.

(** Lowering both strings and looking for a substring is looking for a
    substring up to letter case. *)
Lemma substring_ci_lower (k t : string) :
  substring (Py.lower k) (Py.lower t) <-> substring_ci k t.
Proof.
  unfold substring, substring_ci. split.
  - intros (pre & post & H).
    apply lower_split in H. destruct H as (a & r & -> & A & H).
    apply lower_split in H. destruct H as (m & b & -> & M & B).
    exists a, m, b. split; [reflexivity|].
    apply same_letters_lower. congruence.
  - intros (pre & mid & post & -> & S).
    apply same_letters_lower in S.
    exists (Py.lower pre), (Py.lower post).
    rewrite !lower_app. congruence.
Qed.


(* ------------------------------------------------------------------ *)
(** ** One source *)

Section SourceRunner.

Variable lib : Lib.
Variable w : World.

(** What [scrape_headlines] returns: nothing without a document, and
    otherwise what each anchor contributes, in document order. *)
Lemma scrape_headlines_value (name u : string) (kw : option string) (n : nat) :
  value (scrape_headlines lib w name u kw n) =
  match value (fetch_html lib w u n) with
  | None => []
  | Some soup => flat_map (records_of lib name u kw) (anchors soup)
  end.
Proof.
  unfold scrape_headlines, bind, logging, emit. cbn [value calls].
  destruct (value (fetch_html lib w u n)) as [soup|]; cbn [value ret].
  - apply (scrape_items_flat_map lib name u kw (anchors soup) []).
  - reflexivity.
Qed.

(** What it does: announce the source, fetch, and report the count when
    there was a document. *)
Lemma scrape_headlines_events (name u : string) (kw : option string) (n : nat) :
  events (scrape_headlines lib w name u kw n) =
  EvLog INFO ("Scraping " ++ name ++ "...")
  :: events (fetch_html lib w u n)
  ++ match value (fetch_html lib w u n) with
     | None => []
     | Some soup =>
         [EvLog INFO
            ("Found "
             ++ Py.str_of_nat
                  (length (flat_map (records_of lib name u kw) (anchors soup)))
             ++ " headlines from " ++ name ++ ".")]
     end.
Proof.
  unfold scrape_headlines, bind, logging, emit. cbn [value calls events].
  destruct (value (fetch_html lib w u n)) as [soup|]; cbn [value events ret].
  - rewrite (scrape_items_flat_map lib name u kw (anchors soup) []).
    simpl. reflexivity.
  - reflexivity.
Qed.

Lemma scrape_headlines_calls (name u : string) (kw : option string) (n : nat) :
  calls (scrape_headlines lib w name u kw n) = calls (fetch_html lib w u n).
Proof.
  unfold scrape_headlines, bind, logging, emit. cbn [value calls].
  destruct (value (fetch_html lib w u n)); reflexivity.
Qed.

(** A source whose URL is denied yields nothing. *)
Lemma scrape_headlines_denied (name u : string) (kw : option string) (n : nat) :
  value (can_fetch lib w u default_user_agent n) = false ->
  value (scrape_headlines lib w name u kw n) = [].
Proof.
  intros H. rewrite scrape_headlines_value, (fetch_html_denied lib w u n H).
  reflexivity.
Qed.

Lemma prefix_nil (s : string) : String.prefix "" s = true.
Proof.
  destruct s; reflexivity.
Qed.

(** How the events of one source are classified. *)
Lemma fetch_html_count (p : Event -> bool) (u : string) (n : nat) :
  p = is_persist \/ p = is_scrape_start \/ p = is_invalid_source_warning ->
  count p (events (fetch_html lib w u n)) = 0.
Proof.
  intros P.
  assert (G : count p (events (can_fetch lib w u default_user_agent n)) = 0).
  { destruct P as [->|[->| ->]];
      [apply can_fetch_no_persist | apply can_fetch_no_scrape_start
      | apply can_fetch_no_invalid_warning]. }
  destruct (fetch_html_events lib w u n)
    as (tail & E & [[_ T]|[_ [T|[[e T]|[e T]]]]]);
    rewrite E, count_app, G, T;
    destruct P as [->|[->| ->]]; reflexivity.
Qed.

Lemma scrape_headlines_no_persist (name u : string) (kw : option string)
    (n : nat) :
  count is_persist (events (scrape_headlines lib w name u kw n)) = 0.
Proof.
  rewrite scrape_headlines_events.
  change (EvLog INFO ("Scraping " ++ name ++ "...") :: ?l)
    with ([EvLog INFO ("Scraping " ++ name ++ "...")] ++ l).
  rewrite !count_app, fetch_html_count by auto.
  destruct (value (fetch_html lib w u n)); reflexivity.
Qed.

Lemma scrape_headlines_one_start (name u : string) (kw : option string)
    (n : nat) :
  count is_scrape_start (events (scrape_headlines lib w name u kw n)) = 1.
Proof.
  rewrite scrape_headlines_events.
  change (EvLog INFO ("Scraping " ++ name ++ "...") :: ?l)
    with ([EvLog INFO ("Scraping " ++ name ++ "...")] ++ l).
  rewrite !count_app, fetch_html_count by auto.
  assert (S : count is_scrape_start
                [EvLog INFO ("Scraping " ++ name ++ "...")] = 1).
  { unfold count. cbn [filter is_scrape_start].
    change ("Scraping " ++ name ++ "...")%string
      with ("Scraping " ++ (name ++ "..."))%string.
    replace (String.prefix "Scraping " ("Scraping " ++ (name ++ "...")))
      with true; [reflexivity|].
    symmetry. apply prefix_spec. eauto. }
  rewrite S.
  destruct (value (fetch_html lib w u n)); reflexivity.
Qed.

Lemma scrape_headlines_no_invalid_warning (name u : string)
    (kw : option string) (n : nat) :
  count is_invalid_source_warning
    (events (scrape_headlines lib w name u kw n)) = 0.
Proof.
  rewrite scrape_headlines_events.
  change (EvLog INFO ("Scraping " ++ name ++ "...") :: ?l)
    with ([EvLog INFO ("Scraping " ++ name ++ "...")] ++ l).
  rewrite !count_app, fetch_html_count by auto.
  destruct (value (fetch_html lib w u n)); reflexivity.
Qed.

End SourceRunner.

Arguments scrape_headlines : simpl never.

(* ------------------------------------------------------------------ *)
(** ** Properties of the extracted records *)

(** Anchors without a title or without a link can be taken out of the
    document: the output does not change. *)
Lemma records_of_filter (lib : Lib) (name u : string) (kw : option string)
    (items : list Anchor) :
  flat_map (records_of lib name u kw) items =
  flat_map (records_of lib name u kw) (filter has_title_and_link items).
Proof.
  induction items as [|item rest IH]; [reflexivity|].
  cbn [filter flat_map]. destruct (has_title_and_link item) eqn:V.
  - cbn [flat_map]. rewrite IH. reflexivity.
  - rewrite <- IH. unfold records_of at 1.
    rewrite headline_of_invalid; [reflexivity|].
    unfold has_title_and_link in V. apply andb_false_iff in V.
    destruct V as [V|V].
    + left. apply truthy_false. exact V.
    + right. destruct (a_href item) as [l|]; [right|left; reflexivity].
      simpl in V. apply truthy_false in V. congruence.
Qed.

Lemma records_of_well_formed (lib : Lib) (name u : string)
    (kw : option string) (items : list Anchor) :
  Forall (fun h => source h = name /\ title h <> "" /\ time h = None
                   /\ exists link, link <> "" /\ url h = urljoin lib u link)
    (flat_map (records_of lib name u kw) items).
Proof.
  apply Forall_forall. intros h H. apply in_flat_map in H.
  destruct H as (item & _ & H). unfold records_of in H.
  destruct (headline_of lib name u kw item) as [h'|] eqn:E; [|contradiction].
  destruct H as [<-|[]].
  apply headline_of_Some in E.
  destruct E as (link & _ & L & T & _ & ->). simpl.
  repeat split; try assumption. exists link. auto.
Qed.

(** [isspace] is true of the white space characters and of no other. *)
Lemma isspace_white_space (c : ascii) :
  Py.isspace c = true <-> white_space c.
Proof.
  unfold white_space.
  destruct c as [[] [] [] [] [] [] [] []]; vm_compute;
    (split; [intros H; first [discriminate H | tauto]
            | intros H; first [reflexivity | exfalso; lia]]).
Qed.

Lemma lstrip_blank (s : string) : blank (Py.lstrip s) <-> blank s.
Proof.
  induction s as [|c r IH]; [tauto|]. cbn [Py.lstrip].
  destruct (Py.isspace c) eqn:W; [|tauto].
  apply isspace_white_space in W. cbn [blank]. tauto.
Qed.

Lemma rstrip_blank (s : string) : Py.rstrip s = "" <-> blank s.
Proof.
  induction s as [|c r IH]; [cbn; tauto|]. cbn [Py.rstrip blank].
  destruct (Py.rstrip r) as [|d r'].
  - destruct (Py.isspace c) eqn:W.
    + apply isspace_white_space in W. tauto.
    + split; [discriminate|]. intros [H _].
      apply isspace_white_space in H. congruence.
  - split; [discriminate|]. intros [_ H]. apply IH in H. discriminate.
Qed.

(** [strip] leaves nothing exactly of the texts made of white space. *)
Lemma strip_blank (s : string) : Py.strip s = "" <-> blank s.
Proof.
  unfold Py.strip. rewrite rstrip_blank. apply lstrip_blank.
Qed.

Lemma join_truthy_empty (l : list string) :
  Py.join "" (filter Py.truthy l) = "" <-> Forall (fun x => x = "") l.
Proof.
  unfold Py.join. induction l as [|x l IH]; [cbn; split; auto|].
  cbn [filter]. destruct x as [|c x]; cbn [Py.truthy].
  - rewrite IH. split; [auto | intros H; inversion H; assumption].
  - split.
    + cbn [String.concat]. destruct (filter Py.truthy l); discriminate.
    + intros H. inversion H. discriminate.
Qed.

(** [get_text(strip=True)] is empty exactly for the anchors without
    visible text. *)
Lemma get_text_strip_blank (item : Anchor) :
  get_text_strip item = "" <-> no_visible_text item.
Proof.
  unfold get_text_strip, no_visible_text. rewrite join_truthy_empty.
  rewrite Forall_map. split; intros H; eapply Forall_impl; try exact H;
    intros x; apply strip_blank.
Qed.

(** The anchors that get past the first test of the loop are those with
    visible text and a non-empty link. *)
Lemma has_title_and_link_spec (item : Anchor) :
  has_title_and_link item = true <->
  ~ no_visible_text item
  /\ exists link, a_href item = Some link /\ link <> "".
Proof.
  unfold has_title_and_link. rewrite andb_true_iff, truthy_true.
  rewrite get_text_strip_blank.
  destruct (a_href item) as [l|]; cbn [Py.truthy_opt].
  - rewrite truthy_true. split.
    + intros [A B]. split; [exact A|]. exists l. auto.
    + intros [A (l' & E & B)]. injection E as <-. auto.
  - split; [intros [_ H]; discriminate|].
    intros [_ (l & E & _)]. discriminate.
Qed.

(** C3: every record returned by [scrape_headlines] has a non-empty title,
    no time, and as URL the join of the page URL with a non-empty link,
    which is non-empty as soon as [urljoin] gives non-empty results on
    this page for non-empty links.  An anchor without visible text (no
    text node, or only nodes made of white space), or whose [href] is
    missing or empty, gives no record; the anchors that get past that
    test are exactly those with visible text and a non-empty link, and
    the output is the same as if the others were not in the document. *)
Theorem scraped_headlines_well_formed (lib : Lib) (w : World)
    (name u : string) (kw : option string) (n : nat) :
  (forall link, link <> "" -> urljoin lib u link <> "") ->
  let out := value (scrape_headlines lib w name u kw n) in
  Forall (fun h => title h <> "" /\ url h <> "" /\ time h = None) out
  /\ Forall (fun h => exists link, link <> "" /\ url h = urljoin lib u link) out
  /\ (forall item,
        no_visible_text item \/ a_href item = None \/ a_href item = Some "" ->
        headline_of lib name u kw item = None)
  /\ (forall item,
        has_title_and_link item = true <->
        ~ no_visible_text item
        /\ exists link, a_href item = Some link /\ link <> "")
  /\ out = match value (fetch_html lib w u n) with
           | None => []
           | Some soup =>
               flat_map (records_of lib name u kw)
                 (filter has_title_and_link (anchors soup))
           end.
Proof.
  intros J. cbv zeta. rewrite scrape_headlines_value.
  assert (W : Forall (fun h => source h = name /\ title h <> "" /\ time h = None
                   /\ exists link, link <> "" /\ url h = urljoin lib u link)
                (match value (fetch_html lib w u n) with
                 | None => []
                 | Some soup => flat_map (records_of lib name u kw) (anchors soup)
                 end)).
  { destruct (value (fetch_html lib w u n)) as [soup|];
      [apply records_of_well_formed | constructor]. }
  split; [|split; [|split; [|split]]].
  - eapply Forall_impl; [|exact W]. simpl.
    intros h (_ & T & Tm & link & L & U). rewrite U. auto.
  - eapply Forall_impl; [|exact W]. simpl.
    intros h (_ & _ & _ & E). exact E.
  - intros item H. apply headline_of_invalid.
    rewrite get_text_strip_blank. exact H.
  - apply has_title_and_link_spec.
  - destruct (value (fetch_html lib w u n)) as [soup|]; [|reflexivity].
    apply records_of_filter.
Qed.

(** The sample resolver never answers with the empty string for a link of
    the sample pages. *)
Lemma sample_urljoin_nonempty (link : string) :
  link <> "" -> urljoin Sample.lib "https://example.com/tech" link <> "".
Proof.
  intros L. destruct link as [|c r]; [congruence|].
  change (urljoin Sample.lib) with Sample.urljoin. unfold Sample.urljoin.
  destruct (Py.contains "://" (String c r)); [discriminate|].
  destruct (Ascii.eqb c "/"); intros E; vm_compute in E; discriminate E.
Qed.

Lemma sample_urljoin_nonempty_news (link : string) :
  link <> "" -> urljoin Sample.lib "https://a.example/news" link <> "".
Proof.
  intros L. destruct link as [|c r]; [congruence|].
  change (urljoin Sample.lib) with Sample.urljoin. unfold Sample.urljoin.
  destruct (Py.contains "://" (String c r)); [discriminate|].
  destruct (Ascii.eqb c "/"); intros E; vm_compute in E; discriminate E.
Qed.

Lemma scraped_headlines_well_formed_witness :
  Forall (fun h => title h <> "" /\ url h <> "" /\ time h = None)
    (value (scrape_headlines Sample.lib Sample.open_world "a"
              "https://a.example/news" None 0))
  /\ headline_of Sample.lib "a" "https://a.example/news" None
       (mkAnchor [" "; String "160" (String "010" "")] (Some "/3")) = None
  /\ headline_of Sample.lib "a" "https://a.example/news" None
       (mkAnchor ["Markets"] (Some "")) = None.
Proof.
  pose proof (scraped_headlines_well_formed Sample.lib Sample.open_world
                "a" "https://a.example/news" None 0
                sample_urljoin_nonempty_news) as (A & _ & B & _).
  split; [exact A|]. split.
  - apply B. left. unfold no_visible_text. cbn [a_strings].
    apply Forall_cons; [|apply Forall_cons; [|apply Forall_nil]];
      cbn [blank]; unfold white_space; repeat split; vm_compute; lia.
  - apply B. right. right. reflexivity.
Defined.



(** The title "Stocks Rally" is kept for the keyword "stock". *)
Example stocks_rally_kept_for_stock :
  headline_of Sample.lib "a" "https://a.example/news" (Some "stock")
    (mkAnchor ["Stocks Rally"] (Some "/1")) =
  Some (mkHeadline "a" "Stocks Rally" "https://a.example/1" None).
Proof. reflexivity. Qed.

(** The title "Stocks Rally" is dropped for the keyword "bond". *)
Example stocks_rally_dropped_for_bond :
  headline_of Sample.lib "a" "https://a.example/news" (Some "bond")
    (mkAnchor ["Stocks Rally"] (Some "/1")) = None.
Proof. reflexivity. Qed.

(** Letters with accents are folded too: the keyword "école" (its first
    letter is U+00E9) keeps the title "Café ÉCOLE" (U+00E9, U+00C9). *)
Example accented_title_kept :
  let cafe_ecole := ("Caf" ++ String "233" (" " ++ String "201" "COLE"))%string in
  records_of Sample.lib "a" "https://a.example/news"
    (Some (String "233" "cole")) (mkAnchor [cafe_ecole] (Some "/1")) =
  [mkHeadline "a" cafe_ecole "https://a.example/1" None].
Proof. reflexivity. Qed.

(** An anchor whose only text is a no-break space (U+00A0) has no title
    and gives no record. *)
Example no_break_space_is_no_title :
  records_of Sample.lib "a" "https://a.example/news" None
    (mkAnchor [String "160" ""] (Some "/1")) = [].
Proof. reflexivity. Qed.

(** One source, keyword "ai", two links on the page: one record. *)
Example tech_scenario :
  value (scrape_headlines Sample.lib Sample.open_world "tech"
           "https://example.com/tech" (Some "ai") 0) =
  [mkHeadline "tech" "AI breakthrough" "https://example.com/x" None].
Proof. reflexivity. Qed.

(* ------------------------------------------------------------------ *)
(** ** The pipeline *)

Section PipelineFacts.

Variable lib : Lib.
Variable w : World.
Variable kw : option string.

(** One turn of the loop of [main] on a token without [=]. *)
Lemma main_loop_malformed (source_entry : string) (rest : list string)
    (acc : list HeadlineRecord) (n : nat) :
  well_formed source_entry = false ->
  main_loop lib w (source_entry :: rest) kw acc n =
  let r := main_loop lib w rest kw acc n in
  mkRun (value r)
    (EvLog WARNING ("Invalid source format: " ++ source_entry) :: events r)
    (calls r).
Proof.
  unfold well_formed. intros H. cbn [main_loop]. rewrite H. reflexivity.
Qed.

(** One turn of the loop on a token with its [=]. *)
Lemma main_loop_well_formed (source_entry : string) (rest : list string)
    (acc : list HeadlineRecord) (n : nat) :
  well_formed source_entry = true ->
  main_loop lib w (source_entry :: rest) kw acc n =
  let s := scrape_headlines lib w (fst (spec_of source_entry))
             (snd (spec_of source_entry)) kw n in
  let r := main_loop lib w rest kw (acc ++ value s) (calls s) in
  mkRun (value r) (events s ++ events r) (calls r).
Proof.
  unfold well_formed, spec_of. intros H. cbn [main_loop]. rewrite H.
  destruct (Py.split1 "=" source_entry) as [name u]. reflexivity.
Qed.

(** The loop never touches the file system. *)
Lemma main_loop_no_persist (entries : list string)
    (acc : list HeadlineRecord) (n : nat) :
  count is_persist (events (main_loop lib w entries kw acc n)) = 0.
Proof.
  revert acc n. induction entries as [|e rest IH]; intros acc n.
  - reflexivity.
  - destruct (well_formed e) eqn:V.
    + rewrite main_loop_well_formed by assumption. cbv zeta. cbn [events].
      rewrite count_app, scrape_headlines_no_persist, IH. reflexivity.
    + rewrite main_loop_malformed by assumption. cbv zeta. cbn [events].
      change (?x :: ?l) with ([x] ++ l). rewrite count_app, IH. reflexivity.
Qed.

(** The accumulator only grows at its end. *)
Lemma main_loop_acc (entries : list string) (acc : list HeadlineRecord)
    (n : nat) :
  main_loop lib w entries kw acc n =
  let r := main_loop lib w entries kw [] n in
  mkRun (acc ++ value r) (events r) (calls r).
Proof.
  revert acc n. induction entries as [|e rest IH]; intros acc n.
  - simpl. unfold ret. rewrite app_nil_r. reflexivity.
  - destruct (well_formed e) eqn:V.
    + rewrite !main_loop_well_formed by assumption. cbv zeta.
      rewrite IH. rewrite (IH ([] ++ _)). cbv zeta. cbn [value events calls].
      rewrite app_nil_l, app_assoc. reflexivity.
    + rewrite !main_loop_malformed by assumption. cbv zeta.
      rewrite IH. reflexivity.
Qed.

(** On well-formed tokens the loop is [scrape_headlines] on each source
    in turn, its outputs laid end to end. *)
Lemma main_loop_scrape_each (entries : list string) (n : nat) :
  forallb well_formed entries = true ->
  main_loop lib w entries kw [] n =
  let r := scrape_each lib w (map spec_of entries) kw n in
  mkRun (concat (value r)) (events r) (calls r).
Proof.
  revert n. induction entries as [|e rest IH]; intros n H.
  - reflexivity.
  - simpl in H. apply andb_true_iff in H. destruct H as [V H].
    rewrite main_loop_well_formed by assumption. cbv zeta.
    rewrite main_loop_acc, IH by assumption. cbv zeta.
    cbn [value events calls map scrape_each].
    destruct (spec_of e) as [name u]. cbn [fst snd].
    unfold bind, ret. cbn [value events calls concat].
    rewrite app_nil_r. reflexivity.
Qed.

(** Tokens without [=] change neither the result of the loop nor the
    network calls it makes. *)
Lemma main_loop_filter (entries : list string) (acc : list HeadlineRecord)
    (n : nat) :
  value (main_loop lib w entries kw acc n) =
    value (main_loop lib w (filter well_formed entries) kw acc n)
  /\ calls (main_loop lib w entries kw acc n) =
     calls (main_loop lib w (filter well_formed entries) kw acc n).
Proof.
  revert acc n. induction entries as [|e rest IH]; intros acc n.
  - split; reflexivity.
  - cbn [filter]. destruct (well_formed e) eqn:V.
    + rewrite !main_loop_well_formed by assumption. cbv zeta.
      cbn [value calls]. apply IH.
    + rewrite main_loop_malformed by assumption. cbv zeta.
      cbn [value calls]. apply IH.
Qed.

(** The log shows one start line per well-formed token and one warning
    per token without [=]. *)
Lemma main_loop_counts (entries : list string) (acc : list HeadlineRecord)
    (n : nat) :
  count is_scrape_start (events (main_loop lib w entries kw acc n)) =
    length (filter well_formed entries)
  /\ count is_invalid_source_warning
       (events (main_loop lib w entries kw acc n)) =
     length (filter (fun e => negb (well_formed e)) entries).
Proof.
  revert acc n. induction entries as [|e rest IH]; intros acc n.
  - split; reflexivity.
  - cbn [filter]. destruct (well_formed e) eqn:V; cbn [negb].
    + rewrite main_loop_well_formed by assumption. cbv zeta. cbn [events].
      rewrite !count_app, scrape_headlines_one_start,
        scrape_headlines_no_invalid_warning.
      destruct (IH (acc ++ value (scrape_headlines lib w (fst (spec_of e))
                                    (snd (spec_of e)) kw n))
                  (calls (scrape_headlines lib w (fst (spec_of e))
                            (snd (spec_of e)) kw n))) as [A B].
      rewrite A, B. split; reflexivity.
    + rewrite main_loop_malformed by assumption. cbv zeta. cbn [events].
      change (?x :: ?l) with ([x] ++ l). rewrite !count_app.
      destruct (IH acc n) as [A B]. rewrite A, B.
      assert (P : String.prefix "Invalid source format: "
                    ("Invalid source format: " ++ e) = true)
        by (apply prefix_spec; eauto).
      unfold count. cbn [filter is_scrape_start is_invalid_source_warning].
      rewrite P. split; reflexivity.
Qed.

(** Every token without [=] has its warning in the log. *)
Lemma main_loop_warns (entries : list string) (acc : list HeadlineRecord)
    (n : nat) (source_entry : string) :
  In source_entry entries -> well_formed source_entry = false ->
  In (EvLog WARNING ("Invalid source format: " ++ source_entry))
     (events (main_loop lib w entries kw acc n)).
Proof.
  revert acc n. induction entries as [|e rest IH]; intros acc n I V.
  - contradiction.
  - destruct (well_formed e) eqn:Ve.
    + rewrite main_loop_well_formed by assumption. cbv zeta. cbn [events].
      apply in_or_app. right. destruct I as [->|I]; [congruence|].
      apply IH; assumption.
    + rewrite main_loop_malformed by assumption. cbv zeta. cbn [events].
      destruct I as [->|I]; [left; reflexivity|].
      right. apply IH; assumption.
Qed.

End PipelineFacts.

Arguments main_loop : simpl never.

Lemma filter_split_length {A : Type} (p : A -> bool) (l : list A) :
  length (filter p l) + length (filter (fun x => negb (p x)) l) = length l.
Proof.
  induction l as [|x l IH]; [reflexivity|].
  simpl. destruct (p x); simpl; lia.
Qed.

Lemma forallb_filter_same {A : Type} (p : A -> bool) (l : list A) :
  forallb p (filter p l) = true.
Proof.
  induction l as [|x l IH]; [reflexivity|].
  simpl. destruct (p x) eqn:E; simpl; rewrite ?E; assumption.
Qed.

(** A token is well formed when an [=] occurs in it. *)
Lemma well_formed_spec (source_entry : string) :
  well_formed source_entry = true <-> substring "=" source_entry.
Proof.
  unfold well_formed, substring.
  induction source_entry as [|c r IH]; cbn [Py.contains_char].
  - split; [discriminate|]. intros (pre & post & H).
    destruct pre; discriminate.
  - destruct (Ascii.eqb_spec "=" c) as [<-|N].
    + split; [intros _|reflexivity]. exists "", r. reflexivity.
    + rewrite IH. split.
      * intros (pre & post & H). exists (String c pre), post.
        rewrite H. reflexivity.
      * intros (pre & post & H). destruct pre as [|d pre]; simpl in H.
        -- injection H as E _. congruence.
        -- injection H as _ H. exists pre, post. exact H.
Qed.

Lemma scrape_each_length (lib : Lib) (w : World)
    (specs : list (string * string)) (kw : option string) (n : nat) :
  length (value (scrape_each lib w specs kw n)) = length specs.
Proof.
  revert n. induction specs as [|[name u] rest IH]; intros n.
  - reflexivity.
  - cbn [scrape_each]. unfold bind, ret. cbn [value length].
    rewrite IH. reflexivity.
Qed.

(** What [main] does after its loop. *)
Lemma main_events (lib : Lib) (w : World) (args : Args) (n : nat) :
  let r := main_loop lib w (sources args) (keyword args) [] n in
  events (main lib w args n) =
  events r
  ++ match value r with
     | [] => [EvLog WARNING "No headlines found."]
     | _ :: _ =>
         events (save_results lib (value r) (output args) (format args)
                   (calls r))
     end.
Proof.
  cbv zeta. unfold main, bind.
  destruct (value (main_loop lib w (sources args) (keyword args) [] n));
    reflexivity.
Qed.

(** C5: on well-formed tokens, the aggregate built by [main] is the
    concatenation, in the order of the command line, of what
    [scrape_headlines] returns for each source, each output in its own
    order; the loop does nothing but run these calls one after the other,
    and a non-empty aggregate is what [save_results] receives. *)
Theorem aggregate_is_concatenation (lib : Lib) (w : World)
    (kw : option string) (entries : list string) (n : nat) :
  forallb well_formed entries = true ->
  let outputs := scrape_each lib w (map spec_of entries) kw n in
  value (main_loop lib w entries kw [] n) = concat (value outputs)
  /\ events (main_loop lib w entries kw [] n) = events outputs
  /\ length (value outputs) = length entries
  /\ (forall out fmt,
        concat (value outputs) <> [] ->
        events (main lib w (mkArgs entries kw out fmt) n) =
        events outputs
        ++ events (save_results lib (concat (value outputs)) out fmt
                     (calls outputs))).
Proof.
  intros H. cbv zeta.
  rewrite (main_loop_scrape_each lib w kw entries n H). cbv zeta.
  cbn [value events calls]. split; [reflexivity|]. split; [reflexivity|].
  split.
  - rewrite scrape_each_length. apply length_map.
  - intros out fmt NE. rewrite main_events. cbv zeta.
    cbn [sources keyword output format].
    rewrite (main_loop_scrape_each lib w kw entries n H). cbv zeta.
    cbn [value events calls].
    destruct (concat (value (scrape_each lib w (map spec_of entries) kw n)));
      [congruence | reflexivity].
Qed.

Lemma aggregate_is_concatenation_witness :
  value (main_loop Sample.lib Sample.open_world
           ["a=https://a.example/news"; "b = https://b.example/w/today"]
           None [] 0) =
  concat
    (value (scrape_each Sample.lib Sample.open_world
              [("a", "https://a.example/news");
               ("b", "https://b.example/w/today")] None 0)).
Proof.
  exact (proj1 (aggregate_is_concatenation Sample.lib Sample.open_world None
                  ["a=https://a.example/news"; "b = https://b.example/w/today"]
                  0 eq_refl)).
Defined.

(** Sources [a] and [b] yielding two records and one: the aggregate is
    the two of [a], then the one of [b]. *)
Example two_sources_in_order :
  value (main_loop Sample.lib Sample.open_world
           ["a=https://a.example/news"; "b = https://b.example/w/today"]
           None [] 0) =
  [mkHeadline "a" "Stocks Rally" "https://a.example/1" None;
   mkHeadline "a" "Bond yields" "https://a.example/2" None;
   mkHeadline "b" "Rain" "https://b.example/w/b1.html" None].
Proof. reflexivity. Qed.

(** When every URL is denied, the loop ends with nothing. *)
Lemma main_loop_all_denied (lib : Lib) (w : World) (kw : option string)
    (entries : list string) (n : nat) :
  (forall u m, value (can_fetch lib w u default_user_agent m) = false) ->
  value (main_loop lib w entries kw [] n) = [].
Proof.
  intros D. revert n. induction entries as [|e rest IH]; intros n.
  - reflexivity.
  - destruct (well_formed e) eqn:V.
    + rewrite main_loop_well_formed by assumption. cbv zeta. cbn [value].
      rewrite scrape_headlines_denied by apply D. apply IH.
    + rewrite main_loop_malformed by assumption. cbv zeta. cbn [value].
      apply IH.
Qed.

(** C6: when the aggregate is empty, [main] logs the warning "No headlines
    found." as its last action and [save_results] is not run: no directory
    is created and no file is written.  This is the case when the policy
    gate denies every URL. *)
Theorem empty_aggregate_is_not_persisted (lib : Lib) (w : World)
    (args : Args) (n : nat) :
  let r := main_loop lib w (sources args) (keyword args) [] n in
  (value r = [] ->
   events (main lib w args n) =
     events r ++ [EvLog WARNING "No headlines found."]
   /\ count is_persist (events (main lib w args n)) = 0)
  /\ ((forall u m, value (can_fetch lib w u default_user_agent m) = false) ->
      value r = []
      /\ events (main lib w args n) =
         events r ++ [EvLog WARNING "No headlines found."]
      /\ count is_persist (events (main lib w args n)) = 0).
Proof.
  cbv zeta.
  assert (E : value (main_loop lib w (sources args) (keyword args) [] n) = [] ->
              events (main lib w args n) =
                events (main_loop lib w (sources args) (keyword args) [] n)
                ++ [EvLog WARNING "No headlines found."]
              /\ count is_persist (events (main lib w args n)) = 0).
  { intros H. rewrite main_events. cbv zeta. rewrite H.
    split; [reflexivity|].
    rewrite count_app, main_loop_no_persist. reflexivity. }
  split; [exact E|].
  intros D.
  pose proof (main_loop_all_denied lib w (keyword args) (sources args) n D) as H.
  split; [exact H | exact (E H)].
Qed.

Lemma empty_aggregate_is_not_persisted_witness :
  count is_persist
    (events (main Sample.lib Sample.open_world
               (mkArgs ["gone=https://example.com/gone"] None "out.json" "json")
               0)) = 0
  /\ count is_persist
       (events (main Sample.lib Sample.world_down
                  (mkArgs ["a=https://a.example/news";
                           "b=https://b.example/w/today"] None "out.json" "json")
                  0)) = 0.
Proof.
  split.
  - apply (proj1 (empty_aggregate_is_not_persisted Sample.lib Sample.open_world
                    (mkArgs ["gone=https://example.com/gone"] None
                       "out.json" "json") 0)).
    reflexivity.
  - apply (proj2 (empty_aggregate_is_not_persisted Sample.lib Sample.world_down
                    (mkArgs ["a=https://a.example/news";
                             "b=https://b.example/w/today"] None
                       "out.json" "json") 0)).
    intros u m. rewrite can_fetch_value. reflexivity.
Defined.

(** C7: a token without [=] gets its warning and nothing else: the result
    and the network calls are those of the run on the well-formed tokens
    alone, and the sources processed (counted by the outputs of
    [scrape_headlines], or by the start lines in the log) are as many as
    the tokens less the malformed ones. *)
Theorem malformed_tokens_are_dropped (lib : Lib) (w : World)
    (kw : option string) (entries : list string) (n : nat) :
  let r := main_loop lib w entries kw [] n in
  let malformed := filter (fun e => negb (well_formed e)) entries in
  let outputs :=
    scrape_each lib w (map spec_of (filter well_formed entries)) kw n in
  (forall e, well_formed e = false <-> ~ substring "=" e)
  /\ (forall e, In e entries -> well_formed e = false ->
        In (EvLog WARNING ("Invalid source format: " ++ e)) (events r))
  /\ count is_invalid_source_warning (events r) = length malformed
  /\ value r = value (main_loop lib w (filter well_formed entries) kw [] n)
  /\ calls r = calls (main_loop lib w (filter well_formed entries) kw [] n)
  /\ value r = concat (value outputs)
  /\ length (value outputs) = length entries - length malformed
  /\ count is_scrape_start (events r) = length entries - length malformed.
Proof.
  cbv zeta.
  pose proof (filter_split_length well_formed entries) as L.
  destruct (main_loop_counts lib w kw entries [] n) as [A B].
  destruct (main_loop_filter lib w kw entries [] n) as [V C].
  split; [|split; [|split; [|split; [|split; [|split; [|split]]]]]].
  - intros e. rewrite <- well_formed_spec.
    destruct (well_formed e); split; congruence.
  - intros e I F. apply main_loop_warns; assumption.
  - exact B.
  - exact V.
  - exact C.
  - rewrite V, main_loop_scrape_each by apply forallb_filter_same.
    reflexivity.
  - rewrite scrape_each_length, length_map. lia.
  - rewrite A. lia.
Qed.

Lemma malformed_tokens_are_dropped_witness :
  In (EvLog WARNING "Invalid source format: oops")
     (events (main_loop Sample.lib Sample.open_world
                ["a=https://a.example/news"; "oops";
                 "b=https://b.example/w/today"] None [] 0)).
Proof.
  apply (proj1 (proj2 (malformed_tokens_are_dropped Sample.lib
                         Sample.open_world None
                         ["a=https://a.example/news"; "oops";
                          "b=https://b.example/w/today"] 0)) "oops").
  - right. left. reflexivity.
  - reflexivity.
Defined.

(* ------------------------------------------------------------------ *)
(** ** JSON text read back *)

Section JsonText.

Import Json.

Lemma append_assoc (a b c : string) :
  ((a ++ b) ++ c = a ++ (b ++ c))%string.
Proof.
  induction a as [|x a IH]; simpl; congruence.
Qed.

Lemma append_cons (c : ascii) (a b : string) :
  (String c a ++ b = String c (a ++ b))%string.
Proof. reflexivity. Qed.

Lemma string_cons_inj (c : ascii) (a b : string) :
  String c a = String c b -> a = b.
Proof. congruence. Qed.

Lemma append_length (a b : string) :
  String.length (a ++ b) = String.length a + String.length b.
Proof.
  induction a as [|x a IH]; simpl; congruence.
Qed.

(** Reading back one escaped character gives the character. *)
Lemma scanstring_escape_char (c : ascii) (s : string) :
  scanstring (escape_char c ++ s) =
  match scanstring s with
  | Some (t, rest) => Some (String c t, rest)
  | None => None
  end.
Proof.
  destruct c as [[] [] [] [] [] [] [] []]; reflexivity.
Qed.

(** Reading back an escaped string gives the string and stops after the
    closing quote. *)
Lemma scanstring_escape (s rest : string) :
  scanstring (escape s ++ String dquote rest) = Some (s, rest).
Proof.
  induction s as [|c s IH].
  - reflexivity.
  - cbn [escape]. rewrite append_assoc, scanstring_escape_char, IH.
    reflexivity.
Qed.

Lemma skip_ws_spaces (n : nat) (s : string) :
  skip_ws (spaces n ++ s) = skip_ws s.
Proof.
  induction n as [|n IH]; [reflexivity | exact IH].
Qed.

Lemma skip_ws_newline_indent (lvl : nat) (s : string) :
  skip_ws (newline_indent lvl ++ s) = skip_ws s.
Proof.
  unfold newline_indent. cbn [append]. cbn [skip_ws].
  change (is_ws newline) with true. cbv iota.
  apply skip_ws_spaces.
Qed.

(** One step of the decoder on each kind of text. *)
Lemma scan_once_string (f : nat) (r : string) :
  scan_once (S f) (String dquote r) =
  match scanstring r with
  | Some (t, rest) => Some (Str t, rest)
  | None => None
  end.
Proof. reflexivity. Qed.

Lemma scan_once_null (f : nat) (rest : string) :
  scan_once (S f) ("null" ++ rest) = Some (Null, rest).
Proof. reflexivity. Qed.

Lemma scan_once_array (f : nat) (r : string) :
  scan_once (S f) (String "[" r) =
  match skip_ws r with
  | String c1 r1 =>
      if (nat_of_ascii c1 =? 93)%nat then Some (Arr [], r1)
      else match scan_items f (String c1 r1) with
           | Some (vs, rest) => Some (Arr vs, rest)
           | None => None
           end
  | EmptyString => None
  end.
Proof. reflexivity. Qed.

Lemma scan_once_object (f : nat) (r : string) :
  scan_once (S f) (String "{" r) =
  match skip_ws r with
  | String c1 r1 =>
      if (nat_of_ascii c1 =? 125)%nat then Some (Obj [], r1)
      else if (nat_of_ascii c1 =? 34)%nat then
        match scan_members f r1 with
        | Some (ms, rest) => Some (Obj ms, rest)
        | None => None
        end
      else None
  | EmptyString => None
  end.
Proof. reflexivity. Qed.

Lemma scan_items_step (f : nat) (s : string) :
  scan_items (S f) s =
  match scan_once f s with
  | None => None
  | Some (v, r) =>
      match skip_ws r with
      | String c r1 =>
          if (nat_of_ascii c =? 93)%nat then Some ([v], r1)
          else if (nat_of_ascii c =? 44)%nat then
            match scan_items f (skip_ws r1) with
            | Some (vs, rest) => Some (v :: vs, rest)
            | None => None
            end
          else None
      | EmptyString => None
      end
  end.
Proof. reflexivity. Qed.

Lemma scan_members_step (f : nat) (s : string) :
  scan_members (S f) s =
  match scanstring s with
  | None => None
  | Some (key, r) =>
      match skip_ws r with
      | String c r1 =>
          if (nat_of_ascii c =? 58)%nat then
            match scan_once f (skip_ws r1) with
            | None => None
            | Some (v, r2) =>
                match skip_ws r2 with
                | String c2 r3 =>
                    if (nat_of_ascii c2 =? 125)%nat then Some ([(key, v)], r3)
                    else if (nat_of_ascii c2 =? 44)%nat then
                      match skip_ws r3 with
                      | String c3 r4 =>
                          if (nat_of_ascii c3 =? 34)%nat then
                            match scan_members f r4 with
                            | Some (ms, rest) => Some ((key, v) :: ms, rest)
                            | None => None
                            end
                          else None
                      | EmptyString => None
                      end
                    else None
                | EmptyString => None
                end
            end
          else None
      | EmptyString => None
      end
  end.
Proof. reflexivity. Qed.

(** The text of a value starts with [n], a quote, a bracket or a brace. *)
Lemma encode_head (lvl : nat) (v : value) :
  exists c s, encode lvl v = String c s
              /\ (c = "n" \/ c = dquote \/ c = "[" \/ c = "{")%char.
Proof.
  destruct v as [|s|[|x xs]|[|kv ms]]; cbn [encode encode_basestring append];
    eexists; eexists; (split; [reflexivity|]); auto.
Qed.

(** So white space is not skipped into it. *)
Lemma skip_ws_encode (lvl : nat) (v : value) (s : string) :
  skip_ws (encode lvl v ++ s) = (encode lvl v ++ s)%string.
Proof.
  destruct (encode_head lvl v) as (c & t & E & H). rewrite E.
  destruct H as [->|[->|[->| ->]]]; reflexivity.
Qed.

#[local] Abbreviation reads_back v :=
  (forall lvl rest fuel,
      cost v <= fuel -> scan_once fuel (encode lvl v ++ rest) = Some (v, rest)).

(** White space is not skipped into a list of items either. *)
Lemma skip_ws_join (sep : string) (lvl : nat) (x : value) (xs : list value)
    (s : string) :
  skip_ws (Py.join sep (map (encode lvl) (x :: xs)) ++ s) =
  (Py.join sep (map (encode lvl) (x :: xs)) ++ s)%string.
Proof.
  unfold Py.join. cbn [map String.concat].
  destruct (map (encode lvl) xs).
  - apply skip_ws_encode.
  - rewrite append_assoc. apply skip_ws_encode.
Qed.

(** The items of an array are read back one after the other. *)
Lemma scan_items_encode (lvl : nat) (items : list value) :
  Forall (fun x => reads_back x) items -> items <> [] ->
  forall rest fuel,
    fold_right (fun x acc => S (cost x + acc)) 0 items <= fuel ->
    scan_items fuel
      (Py.join ("," ++ newline_indent (S lvl)) (map (encode (S lvl)) items)
       ++ newline_indent lvl ++ "]" ++ rest) = Some (items, rest).
Proof.
  induction 1 as [|x xs Hx Hxs IH]; [congruence|]. intros _ rest fuel F.
  cbn [fold_right] in F. destruct fuel as [|f]; [lia|].
  rewrite scan_items_step. destruct xs as [|y ys].
  - unfold Py.join. cbn [map String.concat]. rewrite Hx by (cbn [fold_right] in F; lia).
    rewrite skip_ws_newline_indent. reflexivity.
  - assert (E : (Py.join ("," ++ newline_indent (S lvl))
                   (map (encode (S lvl)) (x :: y :: ys))
                 ++ newline_indent lvl ++ "]" ++ rest
                 = encode (S lvl) x
                   ++ String ","
                        (newline_indent (S lvl)
                         ++ Py.join ("," ++ newline_indent (S lvl))
                              (map (encode (S lvl)) (y :: ys))
                         ++ newline_indent lvl ++ "]" ++ rest))%string).
    { unfold Py.join. cbn [map String.concat].
      rewrite !append_assoc. reflexivity. }
    rewrite E, Hx by lia.
    cbn [skip_ws]. change (is_ws ",") with false. cbv iota.
    change (nat_of_ascii "," =? 93)%nat with false.
    change (nat_of_ascii "," =? 44)%nat with true. cbv iota.
    rewrite skip_ws_newline_indent, skip_ws_join.
    rewrite IH; [reflexivity | discriminate | lia].
Qed.

#[local] Abbreviation member_text lvl :=
  (fun kv : string * value =>
     (encode_basestring (fst kv) ++ ": " ++ encode lvl (snd kv))%string).

(** A list of members starts with the quote of its first key. *)
Lemma join_members_head (sep : string) (lvl : nat) (kv : string * value)
    (ms : list (string * value)) (s : string) :
  exists t,
    (Py.join sep (map (member_text lvl) (kv :: ms)) ++ s)%string
    = String dquote t.
Proof.
  unfold Py.join. cbn [map String.concat].
  destruct (map (member_text lvl) ms);
    cbn [encode_basestring append]; eexists; reflexivity.
Qed.

(** The text of a list of members, cut after its first member. *)
Lemma members_text_one (sep : string) (lvl : nat) (k : string) (v : value)
    (s : string) :
  (Py.join sep (map (member_text lvl) [(k, v)]) ++ s)%string =
  String dquote
    (escape k ++ String dquote (String ":" (String " " (encode lvl v ++ s)))).
Proof.
  unfold Py.join. cbn [map String.concat fst snd]. unfold encode_basestring.
  repeat (rewrite append_cons || rewrite append_assoc). reflexivity.
Qed.

Lemma members_text_more (sep : string) (lvl : nat) (k : string) (v : value)
    (kv2 : string * value) (ms : list (string * value)) (s : string) :
  (Py.join sep (map (member_text lvl) ((k, v) :: kv2 :: ms)) ++ s)%string =
  String dquote
    (escape k
     ++ String dquote
          (String ":" (String " "
             (encode lvl v
              ++ sep ++ Py.join sep (map (member_text lvl) (kv2 :: ms)) ++ s)))).
Proof.
  unfold Py.join. cbn [map String.concat fst snd]. unfold encode_basestring.
  repeat (rewrite append_cons || rewrite append_assoc). reflexivity.
Qed.

(** The members of an object are read back one after the other. *)
Lemma scan_members_encode (lvl : nat) (members : list (string * value)) :
  Forall (fun kv => reads_back (snd kv)) members -> members <> [] ->
  forall rest fuel s,
    fold_right (fun kv acc => S (cost (snd kv) + acc)) 0 members <= fuel ->
    String dquote s =
      (Py.join ("," ++ newline_indent (S lvl))
         (map (member_text (S lvl)) members)
       ++ newline_indent lvl ++ "}" ++ rest)%string ->
    scan_members fuel s = Some (members, rest).
Proof.
  induction 1 as [|[k v] ms Hv Hms IH]; [congruence|].
  intros _ rest fuel s F E.
  cbn [fold_right snd] in F. destruct fuel as [|f]; [lia|].
  cbn [snd] in Hv. rewrite scan_members_step. destruct ms as [|kv2 ms].
  - rewrite members_text_one in E. apply string_cons_inj in E. subst s.
    rewrite scanstring_escape.
    cbn [skip_ws]. change (is_ws ":") with false. cbv iota.
    change (nat_of_ascii ":" =? 58)%nat with true. cbv iota.
    cbn [skip_ws]. change (is_ws " ") with true. cbv iota.
    rewrite skip_ws_encode, Hv by (cbn [fold_right] in F; lia).
    rewrite skip_ws_newline_indent. reflexivity.
  - rewrite members_text_more in E. apply string_cons_inj in E. subst s.
    destruct (join_members_head ("," ++ newline_indent (S lvl)) (S lvl) kv2 ms
                (newline_indent lvl ++ "}" ++ rest)) as [t T].
    rewrite T, scanstring_escape.
    cbn [skip_ws]. change (is_ws ":") with false. cbv iota.
    change (nat_of_ascii ":" =? 58)%nat with true. cbv iota.
    cbn [skip_ws]. change (is_ws " ") with true. cbv iota.
    rewrite skip_ws_encode, Hv by lia.
    change (("," ++ newline_indent (S lvl)) ++ String dquote t)%string
      with (String "," (newline_indent (S lvl) ++ String dquote t)).
    cbn [skip_ws]. change (is_ws ",") with false. cbv iota.
    change (nat_of_ascii "," =? 125)%nat with false.
    change (nat_of_ascii "," =? 44)%nat with true. cbv iota.
    rewrite skip_ws_newline_indent.
    cbn [skip_ws]. change (is_ws dquote) with false. cbv iota.
    change (nat_of_ascii dquote =? 34)%nat with true. cbv iota.
    rewrite (IH ltac:(discriminate) rest f t); [reflexivity | lia |].
    symmetry. exact T.
Qed.

(** The decoder reads a value back from its text, whatever follows and
    at any nesting level, given fuel for its nested calls. *)
Lemma scan_once_encode (v : value) : reads_back v.
Proof.
  induction v as [|s|items IH|members IH] using value_induction;
    intros lvl rest fuel F; cbn [cost] in F;
    (destruct fuel as [|f]; [lia|]).
  - apply scan_once_null.
  - cbn [encode]. unfold encode_basestring. cbn [append].
    rewrite scan_once_string, append_assoc. cbn [append].
    rewrite scanstring_escape. reflexivity.
  - destruct items as [|x xs]; [reflexivity|].
    assert (E : (encode lvl (Arr (x :: xs)) ++ rest
                 = String "["
                     (newline_indent (S lvl)
                      ++ Py.join ("," ++ newline_indent (S lvl))
                           (map (encode (S lvl)) (x :: xs))
                      ++ newline_indent lvl ++ "]" ++ rest))%string).
    { cbn [encode]. cbn [append]. rewrite !append_assoc. reflexivity. }
    rewrite E, scan_once_array, skip_ws_newline_indent, skip_ws_join.
    destruct (encode_head (S lvl) x) as (c & t & H & C).
    assert (J : exists t',
               (Py.join ("," ++ newline_indent (S lvl))
                  (map (encode (S lvl)) (x :: xs))
                ++ newline_indent lvl ++ "]" ++ rest)%string = String c t').
    { unfold Py.join. cbn [map String.concat].
      destruct (map (encode (S lvl)) xs); rewrite H; cbn [append];
        eexists; reflexivity. }
    destruct J as [t' J].
    pose proof (scan_items_encode lvl (x :: xs) IH ltac:(discriminate)
                  rest f ltac:(lia)) as R.
    rewrite J in R |- *. rewrite R.
    destruct C as [->|[->|[->| ->]]]; reflexivity.
  - destruct members as [|kv ms]; [reflexivity|].
    destruct (join_members_head ("," ++ newline_indent (S lvl)) (S lvl) kv ms
                (newline_indent lvl ++ "}" ++ rest)) as [t T].
    assert (E : (encode lvl (Obj (kv :: ms)) ++ rest
                 = String "{" (newline_indent (S lvl) ++ String dquote t))%string).
    { rewrite <- T. cbn [encode]. cbn [append].
      rewrite !append_assoc. reflexivity. }
    rewrite E, scan_once_object, skip_ws_newline_indent.
    cbn [skip_ws]. change (is_ws dquote) with false. cbv iota.
    change (nat_of_ascii dquote =? 125)%nat with false.
    change (nat_of_ascii dquote =? 34)%nat with true. cbv iota.
    rewrite (scan_members_encode lvl (kv :: ms) IH ltac:(discriminate)
               rest f t); [reflexivity | lia |].
    symmetry. exact T.
Qed.

Lemma append_nil_r (a : string) : (a ++ "")%string = a.
Proof.
  induction a as [|c a IH]; simpl; congruence.
Qed.

Lemma newline_indent_length (lvl : nat) :
  1 <= String.length (newline_indent lvl).
Proof.
  unfold newline_indent. cbn [String.length]. lia.
Qed.

(** The text of a list is at least as long as the decoder needs calls to
    read its items. *)
Lemma cost_items_le_length (lvl : nat) (sep : string) (items : list value) :
  Forall (fun x => forall lvl, cost x <= String.length (encode lvl x)) items ->
  1 <= String.length sep ->
  fold_right (fun x acc => S (cost x + acc)) 0 items
  <= String.length (Py.join sep (map (encode lvl) items)) + 1.
Proof.
  intros H S. induction H as [|x xs Hx Hxs IH]; [cbn; lia|].
  cbn [fold_right]. destruct xs as [|y ys].
  - unfold Py.join. cbn [map String.concat fold_right].
    specialize (Hx lvl). lia.
  - change (Py.join sep (map (encode lvl) (x :: y :: ys)))
      with (encode lvl x ++ sep ++ Py.join sep (map (encode lvl) (y :: ys)))%string.
    rewrite !append_length. specialize (Hx lvl). lia.
Qed.

Lemma cost_members_le_length (lvl : nat) (sep : string)
    (members : list (string * value)) :
  Forall (fun kv => forall lvl, cost (snd kv) <= String.length (encode lvl (snd kv)))
    members ->
  1 <= String.length sep ->
  fold_right (fun kv acc => S (cost (snd kv) + acc)) 0 members
  <= String.length (Py.join sep (map (member_text lvl) members)) + 1.
Proof.
  intros H S. induction H as [|kv ms Hv Hms IH]; [cbn; lia|].
  cbn [fold_right]. destruct ms as [|kv2 ms].
  - unfold Py.join. cbn [map String.concat fold_right].
    rewrite !append_length. specialize (Hv lvl). lia.
  - change (Py.join sep (map (member_text lvl) (kv :: kv2 :: ms)))
      with (member_text lvl kv ++ sep
            ++ Py.join sep (map (member_text lvl) (kv2 :: ms)))%string.
    rewrite !append_length. specialize (Hv lvl). lia.
Qed.

Lemma cost_le_length (v : value) (lvl : nat) :
  cost v <= String.length (encode lvl v).
Proof.
  revert lvl.
  induction v as [|s|items IH|members IH] using value_induction; intros lvl.
  - cbn. lia.
  - cbn [cost encode encode_basestring String.length]. lia.
  - destruct items as [|x xs]; [cbn; lia|].
    pose proof (cost_items_le_length (S lvl) ("," ++ newline_indent (S lvl))
                  (x :: xs) IH ltac:(cbn [append String.length]; lia)) as B.
    change (encode lvl (Arr (x :: xs)))
      with ("[" ++ newline_indent (S lvl)
            ++ Py.join ("," ++ newline_indent (S lvl))
                 (map (encode (S lvl)) (x :: xs))
            ++ newline_indent lvl ++ "]")%string.
    rewrite !append_length. cbn [cost].
    pose proof (newline_indent_length lvl).
    pose proof (newline_indent_length (S lvl)).
    cbn [String.length]. lia.
  - destruct members as [|kv ms]; [cbn; lia|].
    pose proof (cost_members_le_length (S lvl) ("," ++ newline_indent (S lvl))
                  (kv :: ms) IH ltac:(cbn [append String.length]; lia)) as B.
    change (encode lvl (Obj (kv :: ms)))
      with ("{" ++ newline_indent (S lvl)
            ++ Py.join ("," ++ newline_indent (S lvl))
                 (map (member_text (S lvl)) (kv :: ms))
            ++ newline_indent lvl ++ "}")%string.
    rewrite !append_length. cbn [cost].
    pose proof (newline_indent_length lvl).
    pose proof (newline_indent_length (S lvl)).
    cbn [String.length]. lia.
Qed.

(** [json.loads] gives back the value whose text it is given. *)
Lemma loads_encode (v : value) : loads (encode 0 v) = Some v.
Proof.
  unfold loads.
  rewrite <- (append_nil_r (encode 0 v)) at 2.
  rewrite skip_ws_encode, scan_once_encode; [reflexivity|].
  pose proof (cost_le_length v 0). lia.
Qed.

End JsonText.

(** C9: [save_results] with the format "json" writes the text of
    [json.dumps(data, ensure_ascii=False, indent=2)], and [json.loads] of
    that text is an array of as many objects as there are records, whose
    [source], [title] and [url] are those of the records, one for one and
    in the same order, whether the record has a time or not. *)
Theorem json_round_trip (lib : Lib) (data : list HeadlineRecord)
    (out : string) (n : nat) :
  events (save_results lib data out "json" n) =
    [EvMkdir (path_parent lib out); EvWrite out (Json.dumps data);
     EvLog INFO ("Results saved to " ++ out)]
  /\ exists objects,
       Json.loads (Json.dumps data) = Some (Json.Arr objects)
       /\ length objects = length data
       /\ map json_fields objects = map headline_fields data.
Proof.
  split; [reflexivity|].
  exists (map Json.of_headline data). split; [|split].
  - apply loads_encode.
  - apply length_map.
  - rewrite map_map. apply map_ext. intros h. reflexivity.
Qed.

(* ------------------------------------------------------------------ *)
(** ** The script at work *)

Example base_of_page : base_of "https://example.com/tech" = "https://example.com".
Proof. reflexivity. Qed.

Example strip_title : Py.strip "  Bond yields  " = "Bond yields".
Proof. reflexivity. Qed.

Example split_token :
  spec_of "b = https://b.example/w/today" = ("b", "https://b.example/w/today").
Proof. reflexivity. Qed.

(** A site without policy file (404) is scraped; a site whose policy
    cannot be downloaded is skipped. *)
Example missing_policy_is_scraped :
  events (fetch_html Sample.lib Sample.world_404 "https://example.com/tech" 0) =
  [EvUrlopen "https://example.com/robots.txt";
   EvGet "https://example.com/tech" "Mozilla/5.0 (NewsScraperBot)" 10;
   EvSleep 1 3].
Proof. reflexivity. Qed.

Example unreachable_policy_is_skipped :
  events (fetch_html Sample.lib Sample.world_down "https://example.com/tech" 0) =
  [EvUrlopen "https://example.com/robots.txt";
   EvLog WARNING "Could not read robots.txt for https://example.com: timed out";
   EvLog WARNING
     "Skipping https://example.com/tech due to robots.txt restrictions."].
Proof. reflexivity. Qed.

(** A whole run: two sources and a token without [=]. *)
Example run_two_sources :
  map (fun e => match e with EvWrite _ _ => EvWrite "out/h.json" "" | _ => e end)
    (events (main Sample.lib Sample.open_world
               (mkArgs ["a = https://a.example/news"; "oops";
                        "b=https://b.example/w/today"] None "out/h.json" "json")
               0)) =
  [EvLog INFO "Scraping a...";
   EvUrlopen "https://a.example/robots.txt";
   EvGet "https://a.example/news" "Mozilla/5.0 (NewsScraperBot)" 10;
   EvSleep 1 3;
   EvLog INFO "Found 2 headlines from a.";
   EvLog WARNING "Invalid source format: oops";
   EvLog INFO "Scraping b...";
   EvUrlopen "https://b.example/robots.txt";
   EvGet "https://b.example/w/today" "Mozilla/5.0 (NewsScraperBot)" 10;
   EvSleep 1 3;
   EvLog INFO "Found 1 headlines from b.";
   EvMkdir ".";
   EvWrite "out/h.json" "";
   EvLog INFO "Results saved to out/h.json"].
Proof. reflexivity. Qed.

(** The text written for one record, read back. *)
Example one_record_read_back :
  Json.loads (Json.dumps [mkHeadline "tech" "AI breakthrough"
                            "https://example.com/x" None]) =
  Some (Json.Arr
          [Json.Obj [("source", Json.Str "tech");
                     ("title", Json.Str "AI breakthrough");
                     ("url", Json.Str "https://example.com/x");
                     ("time", Json.Null)]]).
Proof. reflexivity. Qed.

(* ------------------------------------------------------------------ *)
(** ** Beyond the pipeline's contract: persistence *)

(** [save_results] creates the parent directory first, whatever the
    format; it writes one file, the JSON text or the CSV text, for the
    formats "json" and "csv", and for any other format it writes nothing
    and logs an error (the directory has been created all the same). *)
Theorem save_results_formats (lib : Lib) (data : list HeadlineRecord)
    (out fmt : string) (n : nat) :
  let ev := events (save_results lib data out fmt n) in
  (exists rest, ev = EvMkdir (path_parent lib out) :: rest)
  /\ (fmt = "json" -> filter is_write ev = [EvWrite out (Json.dumps data)])
  /\ (fmt = "csv" -> filter is_write ev = [EvWrite out (to_csv lib data)])
  /\ (fmt <> "json" -> fmt <> "csv" ->
      ev = [EvMkdir (path_parent lib out);
            EvLog ERROR "Unsupported format. Use 'json' or 'csv'."])
  /\ calls (save_results lib data out fmt n) = n.
Proof.
  cbv zeta. unfold save_results. run.
  destruct (String.eqb_spec fmt "json") as [J|J];
    [|destruct (String.eqb_spec fmt "csv") as [C|C]]; simpl.
  - repeat split; eauto; intros; subst; try discriminate; congruence.
  - repeat split; eauto; intros; subst; try discriminate; congruence.
  - repeat split; eauto; intros; congruence.
Qed.

Lemma save_results_formats_witness :
  filter is_write
    (events (save_results Sample.lib [] "out/h.csv" "csv" 0)) =
    [EvWrite "out/h.csv" "source,title,url,time"]
  /\ events (save_results Sample.lib [] "out/h.xml" "xml" 0) =
     [EvMkdir "."; EvLog ERROR "Unsupported format. Use 'json' or 'csv'."].
Proof.
  split.
  - apply (proj1 (proj2 (proj2
             (save_results_formats Sample.lib [] "out/h.csv" "csv" 0)))).
    reflexivity.
  - apply (proj1 (proj2 (proj2 (proj2
             (save_results_formats Sample.lib [] "out/h.xml" "xml" 0)))));
      discriminate.
Defined.

(** [main] touches the file system exactly when at least one headline was
    collected, and then [save_results] is given the whole aggregate. *)
Theorem main_persists_iff_headlines (lib : Lib) (w : World) (args : Args)
    (n : nat) :
  let r := main_loop lib w (sources args) (keyword args) [] n in
  (count is_persist (events (main lib w args n)) = 0 <-> value r = [])
  /\ (value r <> [] ->
      events (main lib w args n) =
      events r
      ++ events (save_results lib (value r) (output args) (format args)
                   (calls r))
      /\ In (EvMkdir (path_parent lib (output args)))
            (events (main lib w args n))).
Proof.
  cbv zeta. rewrite main_events. cbv zeta.
  destruct (value (main_loop lib w (sources args) (keyword args) [] n))
    as [|h t] eqn:V.
  - split; [|congruence]. split; [reflexivity|]. intros _.
    rewrite count_app, main_loop_no_persist. reflexivity.
  - destruct (save_results_formats lib (h :: t) (output args) (format args)
                (calls (main_loop lib w (sources args) (keyword args) [] n)))
      as ([rest E] & _).
    split.
    + split; [|discriminate]. rewrite E, count_app.
      unfold count at 2. simpl. lia.
    + intros _. split; [reflexivity|].
      apply in_or_app. right. rewrite E. left. reflexivity.
Qed.

Lemma main_persists_iff_headlines_witness :
  In (EvMkdir ".")
     (events (main Sample.lib Sample.open_world
                (mkArgs ["tech=https://example.com/tech"] (Some "ai")
                   "out/h.json" "json") 0)).
Proof.
  apply (proj2 (main_persists_iff_headlines Sample.lib Sample.open_world
                  (mkArgs ["tech=https://example.com/tech"] (Some "ai")
                     "out/h.json" "json") 0)).
  discriminate.
Defined.

(* ------------------------------------------------------------------ *)
(** ** Beyond the pipeline's contract: the network *)

(** A warning from [can_fetch] means a denial: its events are the policy
    download alone, or the download and one warning together with the
    answer [False].  The refusals 401 and 403 deny without a warning. *)
Theorem can_fetch_warning_means_denial (lib : Lib) (w : World)
    (u ua : string) (n : nat) :
  let r := can_fetch lib w u ua n in
  (events r = [EvUrlopen (robots_url_of lib u)]
   \/ (value r = false
       /\ exists e,
            events r =
            [EvUrlopen (robots_url_of lib u);
             EvLog WARNING
               ("Could not read robots.txt for " ++ base_of u ++ ": " ++ e)]))
  /\ (forall code,
        urlopen w n (robots_url_of lib u) = UrlopenHTTPError code ->
        code = 401%Z \/ code = 403%Z ->
        value r = false /\ events r = [EvUrlopen (robots_url_of lib u)]).
Proof.
  cbv zeta. split.
  - unfold can_fetch, RobotFileParser.read, RobotFileParser.can_fetch,
      robots_url_of. run.
    repeat branch;
      solve [left; reflexivity | right; split; [reflexivity|]; eexists; reflexivity].
  - intros code H C. rewrite can_fetch_value, H.
    unfold can_fetch, RobotFileParser.read, RobotFileParser.can_fetch,
      robots_url_of in *. run. rewrite H. simpl.
    destruct C as [-> | ->]; split; reflexivity.
Qed.

Lemma can_fetch_warning_means_denial_witness :
  value (can_fetch
           Sample.lib
           (mkWorld (fun _ _ => UrlopenHTTPError 403) (fun _ => Sample.pages))
           "https://example.com/tech" default_user_agent 0) = false.
Proof.
  apply (proj2 (can_fetch_warning_means_denial Sample.lib
                  (mkWorld (fun _ _ => UrlopenHTTPError 403)
                     (fun _ => Sample.pages))
                  "https://example.com/tech" default_user_agent 0) 403%Z).
  - reflexivity.
  - right. reflexivity.
Defined.

(** [fetch_html] returns a document exactly when the policy allows the
    URL, the request is answered with a status outside 400..599 and the
    parser accepts the text.  When the parser raises, the delay has been
    taken, the failure is logged and the result is [None]. *)
Theorem fetch_html_document (lib : Lib) (w : World) (u : string) (n : nat) :
  let gate := can_fetch lib w u default_user_agent n in
  (forall soup,
     value (fetch_html lib w u n) = Some soup <->
     value gate = true
     /\ exists st reason text,
          requests_get w (S n) u = GetResponse st reason text
          /\ ~ (400 <= st < 600)%Z
          /\ BeautifulSoup lib text = Ok soup)
  /\ (forall st reason text e,
        value gate = true ->
        requests_get w (S n) u = GetResponse st reason text ->
        ~ (400 <= st < 600)%Z ->
        BeautifulSoup lib text = Raise e ->
        value (fetch_html lib w u n) = None
        /\ events (fetch_html lib w u n) =
           events gate
           ++ [EvGet u request_user_agent 10; EvSleep 1 3;
               EvLog ERROR ("Failed to fetch " ++ u ++ ": " ++ e)]).
Proof.
  cbv zeta.
  assert (ST : forall st reason,
             ~ (400 <= st < 600)%Z -> raise_for_status st reason u = Ok tt).
  { intros st reason H.
    destruct (raise_for_status st reason u) as [[]|e] eqn:E; [reflexivity|].
    exfalso. apply H. apply (raise_for_status_raises st reason u). eauto. }
  destruct (value (can_fetch lib w u default_user_agent n)) eqn:G.
  - rewrite (fetch_html_allowed lib w u n G). cbv zeta. cbn [value events].
    rewrite can_fetch_calls.
    unfold fetch_html_try. run.
    destruct (requests_get w (S n) u) as [e|st reason text] eqn:Q; simpl.
    + split.
      * intros soup. split; [discriminate|].
        intros (_ & st & reason & text & H & _). discriminate.
      * intros st reason text e' _ H. discriminate.
    + destruct (raise_for_status st reason u) as [[]|e] eqn:R; simpl.
      * assert (NS : ~ (400 <= st < 600)%Z).
        { intros H. apply (raise_for_status_raises st reason u) in H.
          destruct H as [e H]. congruence. }
        split.
        -- intros soup. split.
           ++ intros H. split; [reflexivity|]. exists st, reason, text.
              destruct (BeautifulSoup lib text); [|discriminate].
              injection H as <-. auto.
           ++ intros (_ & st' & reason' & text' & H & _ & B).
              injection H as <- <- <-. rewrite B. reflexivity.
        -- intros st' reason' text' e' _ H _ B.
           injection H as <- <- <-. rewrite B. simpl.
           split; reflexivity.
      * split.
        -- intros soup. split; [discriminate|].
           intros (_ & st' & reason' & text' & H & NS & _).
           injection H as <- <- <-. rewrite (ST st reason NS) in R.
           discriminate.
        -- intros st' reason' text' e' _ H NS _.
           injection H as <- <- <-. rewrite (ST st reason NS) in R.
           discriminate.
  - rewrite (fetch_html_denied lib w u n G). cbn [value]. split.
    + intros soup. split; [discriminate|]. intros [H _]. discriminate.
    + intros; discriminate.
Qed.

Lemma fetch_html_document_witness :
  value (fetch_html Sample.lib Sample.open_world
           "https://example.com/tech" 0) =
  Some (mkDocument [mkAnchor ["AI breakthrough"] (Some "/x");
                    mkAnchor ["Sports update"] (Some "/y")])
  /\ value (fetch_html Sample.lib
              (mkWorld (fun _ _ => UrlopenBody (Some ""))
                 (fun _ _ => GetResponse 200 "OK" "<![n"))
              "https://example.com/odd" 0) = None.
Proof.
  split.
  - apply (proj1 (fetch_html_document Sample.lib Sample.open_world
                    "https://example.com/tech" 0)).
    split; [reflexivity|].
    exists 200%Z, "OK", Sample.page_tech.
    split; [reflexivity|]. split; [lia | reflexivity].
  - apply (proj2 (fetch_html_document Sample.lib
                    (mkWorld (fun _ _ => UrlopenBody (Some ""))
                       (fun _ _ => GetResponse 200 "OK" "<![n"))
                    "https://example.com/odd" 0)
             200%Z "OK" "<![n" "ParserRejectedMarkup");
      [reflexivity | reflexivity | lia | reflexivity].
Defined.

Lemma count_nil (p : Event -> bool) : count p [] = 0.
Proof. reflexivity. Qed.

Lemma count_cons (p : Event -> bool) (e : Event) (l : list Event) :
  count p (e :: l) = count_one p e + count p l.
Proof.
  unfold count, count_one. simpl. destruct (p e); reflexivity.
Qed.

(** How the events of one fetch are counted. *)
Lemma fetch_html_requests (lib : Lib) (w : World) (u : string) (n : nat) :
  let ev := events (fetch_html lib w u n) in
  count is_urlopen ev = 1
  /\ count is_get ev <= 1
  /\ count is_sleep ev <= count is_get ev
  /\ calls (fetch_html lib w u n) = n + count is_urlopen ev + count is_get ev.
Proof.
  cbv zeta. rewrite fetch_html_calls.
  assert (U : count is_urlopen
                (events (can_fetch lib w u default_user_agent n)) = 1).
  { destruct (can_fetch_events lib w u default_user_agent n) as [E|[e E]];
      rewrite E; reflexivity. }
  pose proof (can_fetch_no_get lib w u default_user_agent n) as G.
  pose proof (can_fetch_no_sleep lib w u default_user_agent n) as S.
  destruct (fetch_html_events lib w u n)
    as (tail & E & [[V T]|[V [T|[[e T]|[e T]]]]]);
    rewrite E, !count_app, U, G, S, V, T; unfold count; simpl; lia.
Qed.

Lemma delays_follow_requests_weaken (g : bool) (l : list Event) :
  delays_follow_requests false l = true ->
  delays_follow_requests g l = true.
Proof.
  destruct l as [|e r]; [reflexivity|]. cbn [delays_follow_requests].
  destruct (is_sleep e); [discriminate | auto].
Qed.

Lemma delays_follow_requests_app (g : bool) (a b : list Event) :
  delays_follow_requests g a = true ->
  delays_follow_requests false b = true ->
  delays_follow_requests g (a ++ b) = true.
Proof.
  revert g. induction a as [|e a IH]; intros g A B.
  - apply delays_follow_requests_weaken. exact B.
  - cbn [app delays_follow_requests] in *.
    apply andb_true_iff in A. destruct A as [A1 A2].
    rewrite A1, IH by assumption. reflexivity.
Qed.

(** What the check says: whatever delay is in the list has a page request
    right before it. *)
Lemma delays_follow_requests_spec (l : list Event) :
  delays_follow_requests false l = true ->
  forall pre lo hi post,
    l = pre ++ EvSleep lo hi :: post ->
    exists pre' u ua timeout, pre = pre' ++ [EvGet u ua timeout].
Proof.
  assert (G : forall g l,
             delays_follow_requests g l = true ->
             forall pre lo hi post,
               l = pre ++ EvSleep lo hi :: post ->
               (pre = [] /\ g = true)
               \/ exists pre' u ua timeout, pre = pre' ++ [EvGet u ua timeout]).
  { clear l. intros g l. revert g.
    induction l as [|e r IH]; intros g H pre lo hi post E.
    - destruct pre; discriminate.
    - cbn [delays_follow_requests] in H. apply andb_true_iff in H.
      destruct H as [H1 H2]. destruct pre as [|x pre].
      + injection E as -> _. left. auto.
      + injection E as <- E. right.
        destruct (IH _ H2 pre lo hi post E)
          as [[-> G]|(pre' & u & ua & t & ->)].
        * destruct e; try discriminate. exists [], url0, user_agent, timeout.
          reflexivity.
        * exists (e :: pre'), u, ua, t. reflexivity. }
  intros H pre lo hi post E.
  destruct (G false l H pre lo hi post E) as [[_ F]|R]; [discriminate|exact R].
Qed.

Lemma fetch_html_delay_order (lib : Lib) (w : World) (u : string) (n : nat) :
  delays_follow_requests false (events (fetch_html lib w u n)) = true.
Proof.
  assert (C : delays_follow_requests false
                (events (can_fetch lib w u default_user_agent n)) = true).
  { destruct (can_fetch_events lib w u default_user_agent n) as [E|[e E]];
      rewrite E; reflexivity. }
  destruct (fetch_html_events lib w u n)
    as (tail & E & [[_ T]|[_ [T|[[e T]|[e T]]]]]);
    rewrite E, T; apply delays_follow_requests_app; try exact C; reflexivity.
Qed.

Lemma main_loop_delay_order (lib : Lib) (w : World) (kw : option string)
    (entries : list string) (acc : list HeadlineRecord) (n : nat) :
  delays_follow_requests false (events (main_loop lib w entries kw acc n))
  = true.
Proof.
  revert acc n. induction entries as [|e rest IH]; intros acc n.
  - reflexivity.
  - destruct (well_formed e) eqn:V.
    + rewrite main_loop_well_formed by assumption. cbv zeta. cbn [events].
      apply delays_follow_requests_app; [|apply IH].
      rewrite scrape_headlines_events.
      change (EvLog INFO ?m :: ?l) with ([EvLog INFO m] ++ l).
      apply delays_follow_requests_app; [reflexivity|].
      apply delays_follow_requests_app; [apply fetch_html_delay_order|].
      destruct (value (fetch_html lib w (snd (spec_of e)) n)); reflexivity.
    + rewrite main_loop_malformed by assumption. cbv zeta. cbn [events].
      change (EvLog WARNING ?m :: ?l) with ([EvLog WARNING m] ++ l).
      apply delays_follow_requests_app; [reflexivity | apply IH].
Qed.

(** Over a run of the loop of [main], each well-formed token costs one
    policy download and at most one page request, and nothing else goes
    over the network: at most two requests per source, none for a
    malformed token.  A delay is only ever taken right after a page
    request: the event before any delay is a page request, so there are
    no more delays than page requests. *)
Theorem run_request_budget (lib : Lib) (w : World) (kw : option string)
    (entries : list string) (acc : list HeadlineRecord) (n : nat) :
  let r := main_loop lib w entries kw acc n in
  count is_urlopen (events r) = length (filter well_formed entries)
  /\ count is_get (events r) <= length (filter well_formed entries)
  /\ count is_sleep (events r) <= count is_get (events r)
  /\ calls r = n + count is_urlopen (events r) + count is_get (events r)
  /\ (forall pre lo hi post,
        events r = pre ++ EvSleep lo hi :: post ->
        exists pre' u ua timeout, pre = pre' ++ [EvGet u ua timeout]).
Proof.
  cbv zeta. rewrite <- !and_assoc. split.
  { rewrite !and_assoc.
    revert acc n. induction entries as [|e rest IH]; intros acc n.
      - unfold main_loop, ret, count. simpl. lia.
      - cbn [filter]. destruct (well_formed e) eqn:V.
        + rewrite main_loop_well_formed by assumption. cbv zeta.
          cbn [events calls length].
          set (s := scrape_headlines lib w (fst (spec_of e)) (snd (spec_of e)) kw n).
          destruct (IH (acc ++ value s) (calls s)) as (A & B & C & D).
          rewrite !count_app, D. clear IH.
          assert (F : count is_urlopen (events s) = 1
                      /\ count is_get (events s) <= 1
                      /\ count is_sleep (events s) <= count is_get (events s)
                      /\ calls s = n + count is_urlopen (events s)
                                   + count is_get (events s)).
          { subst s. rewrite scrape_headlines_calls, scrape_headlines_events.
            rewrite !count_cons, !count_app.
            destruct (fetch_html_requests lib w (snd (spec_of e)) n)
              as (F1 & F2 & F3 & F4).
            rewrite F4.
            destruct (value (fetch_html lib w (snd (spec_of e)) n));
              rewrite ?count_cons, ?count_nil;
              cbn [count_one is_urlopen is_get is_sleep]; lia. }
          destruct F as (F1 & F2 & F3 & F4). lia.
        + rewrite main_loop_malformed by assumption. cbv zeta.
          cbn [events calls].
          rewrite !count_cons.
          destruct (IH acc n) as (A & B & C & D).
          cbn [count_one is_urlopen is_get is_sleep]. lia.
  }
  apply delays_follow_requests_spec, main_loop_delay_order.
Qed.

Lemma run_request_budget_witness :
  exists pre' u ua timeout,
    [EvLog INFO "Scraping tech...";
     EvUrlopen "https://example.com/robots.txt";
     EvGet "https://example.com/tech" "Mozilla/5.0 (NewsScraperBot)" 10]
    = pre' ++ [EvGet u ua timeout].
Proof.
  apply (proj2 (proj2 (proj2 (proj2
           (run_request_budget Sample.lib Sample.open_world (Some "ai")
              ["tech=https://example.com/tech"] [] 0))))
           [EvLog INFO "Scraping tech...";
            EvUrlopen "https://example.com/robots.txt";
            EvGet "https://example.com/tech" "Mozilla/5.0 (NewsScraperBot)" 10]
           1%Z 3%Z [EvLog INFO "Found 1 headlines from tech."]).
  reflexivity.
Defined.

(* ------------------------------------------------------------------ *)
(** ** Beyond the pipeline's contract: tokens and URLs *)

Lemma split1_spec (c : ascii) (s : string) :
  Py.contains_char c s = true ->
  s = (fst (Py.split1 c s) ++ String c (snd (Py.split1 c s)))%string
  /\ Py.contains_char c (fst (Py.split1 c s)) = false.
Proof.
  induction s as [|d r IH]; cbn [Py.contains_char Py.split1]; [discriminate|].
  rewrite (Ascii.eqb_sym d c).
  destruct (Ascii.eqb_spec c d) as [<-|N].
  - intros _. split; reflexivity.
  - intros H. destruct (IH H) as [E F].
    destruct (Py.split1 c r) as [a b]. cbn [fst snd] in *.
    split.
    + cbn [append]. congruence.
    + cbn [Py.contains_char]. destruct (Ascii.eqb_spec c d); [contradiction|].
      exact F.
Qed.

Lemma split1_app (c : ascii) (a b : string) :
  Py.contains_char c a = false ->
  Py.split1 c (a ++ String c b) = (a, b).
Proof.
  induction a as [|d a IH]; cbn [Py.contains_char Py.split1 append].
  - intros _. rewrite Ascii.eqb_refl. reflexivity.
  - rewrite (Ascii.eqb_sym d c). destruct (Ascii.eqb c d); [discriminate|].
    intros H. rewrite (IH H). reflexivity.
Qed.

Lemma contains_char_app (c : ascii) (a b : string) :
  Py.contains_char c (a ++ b) =
  Py.contains_char c a || Py.contains_char c b.
Proof.
  induction a as [|d a IH]; cbn [Py.contains_char append]; [reflexivity|].
  destruct (Ascii.eqb c d); [reflexivity | exact IH].
Qed.

(** A source token is cut at its first [=]: what is before it (stripped)
    is the name, all that follows (stripped) is the URL, so an [=] inside
    the URL stays in the URL; and the token is the two pieces with [=]
    between them. *)
Theorem source_token_is_cut_at_first_separator (name rest : string) :
  Py.contains_char "=" name = false ->
  well_formed (name ++ "=" ++ rest) = true
  /\ spec_of (name ++ "=" ++ rest) = (Py.strip name, Py.strip rest)
  /\ forall source_entry,
       well_formed source_entry = true ->
       source_entry =
       (fst (Py.split1 "=" source_entry) ++ "="
        ++ snd (Py.split1 "=" source_entry))%string
       /\ well_formed (fst (Py.split1 "=" source_entry)) = false.
Proof.
  intros H. split; [|split].
  - unfold well_formed. rewrite contains_char_app. apply orb_true_r.
  - unfold spec_of. change ("=" ++ rest)%string with (String "=" rest).
    rewrite (split1_app "=" name rest H). reflexivity.
  - intros e W. apply (split1_spec "=" e W).
Qed.

Lemma source_token_is_cut_at_first_separator_witness :
  spec_of ("search" ++ "=" ++ " https://example.com/find?q=ai ") =
  (Py.strip "search", Py.strip " https://example.com/find?q=ai ").
Proof.
  apply (proj1 (proj2 (source_token_is_cut_at_first_separator
                         "search" " https://example.com/find?q=ai "
                         eq_refl))).
Defined.

Lemma split_nosep (sep : ascii) (a : string) :
  Py.contains_char sep a = false -> Py.split sep a = [a].
Proof.
  induction a as [|d a IH]; cbn [Py.contains_char Py.split]; [reflexivity|].
  rewrite (Ascii.eqb_sym d sep). destruct (Ascii.eqb sep d); [discriminate|].
  intros H. rewrite (IH H). reflexivity.
Qed.

Lemma split_app_sep (sep : ascii) (a b : string) :
  Py.contains_char sep a = false ->
  Py.split sep (a ++ String sep b) = a :: Py.split sep b.
Proof.
  induction a as [|d a IH]; cbn [Py.contains_char Py.split append].
  - intros _. rewrite Ascii.eqb_refl. reflexivity.
  - rewrite (Ascii.eqb_sym d sep). destruct (Ascii.eqb sep d); [discriminate|].
    intros H. rewrite (IH H). reflexivity.
Qed.

(** The policy of a page is looked for at the root of its site: for a URL
    made of a scheme, [//], a host and a path, [base] is the scheme and
    the host, so all the pages of a site share one policy URL. *)
Theorem policy_is_looked_up_at_site_root (lib : Lib) (scheme host : string) :
  Py.contains_char "/" scheme = false ->
  Py.contains_char "/" host = false ->
  base_of (scheme ++ "//" ++ host) = (scheme ++ "//" ++ host)%string
  /\ forall path,
       base_of (scheme ++ "//" ++ host ++ "/" ++ path) =
         (scheme ++ "//" ++ host)%string
       /\ robots_url_of lib (scheme ++ "//" ++ host ++ "/" ++ path) =
          urljoin lib (scheme ++ "//" ++ host) "robots.txt".
Proof.
  intros S H.
  assert (B : forall tail pieces,
             Py.split "/" tail = host :: pieces ->
             base_of (scheme ++ "//" ++ tail) = (scheme ++ "//" ++ host)%string).
  { intros tail pieces E. unfold base_of.
    change (scheme ++ "//" ++ tail)%string
      with (scheme ++ String "/" ("" ++ String "/" tail))%string.
    rewrite (split_app_sep "/" scheme _ S).
    rewrite (split_app_sep "/" "" tail eq_refl), E.
    reflexivity. }
  split.
  - apply (B host []). apply split_nosep. exact H.
  - intros path.
    assert (E : base_of (scheme ++ "//" ++ host ++ "/" ++ path) =
                (scheme ++ "//" ++ host)%string).
    { apply (B _ (Py.split "/" path)).
      change ("/" ++ path)%string with (String "/" path).
      apply split_app_sep. exact H. }
    split; [exact E|]. unfold robots_url_of. rewrite E. reflexivity.
Qed.

Lemma policy_is_looked_up_at_site_root_witness :
  base_of ("https:" ++ "//" ++ "example.com" ++ "/" ++ "world/europe?page=2") =
  ("https:" ++ "//" ++ "example.com")%string.
Proof.
  apply (proj2 (policy_is_looked_up_at_site_root Sample.lib
                  "https:" "example.com" eq_refl eq_refl)).
Defined.

(* ------------------------------------------------------------------ *)
(** ** Beyond the pipeline's contract: the extracted records *)

Lemma lstrip_head (s : string) :
  Py.lstrip s = ""
  \/ exists c r, Py.lstrip s = String c r /\ Py.isspace c = false.
Proof.
  induction s as [|c r IH]; cbn [Py.lstrip]; [left; reflexivity|].
  destruct (Py.isspace c) eqn:E; [exact IH|]. right. eauto.
Qed.

Lemma rstrip_first (s : string) :
  Py.rstrip s <> "" -> first_char (Py.rstrip s) = first_char s.
Proof.
  destruct s as [|c r]; cbn [Py.rstrip]; [congruence|].
  destruct (Py.rstrip r); [|reflexivity].
  destruct (Py.isspace c); [congruence | reflexivity].
Qed.

Lemma rstrip_last (s : string) :
  Py.rstrip s = ""
  \/ exists c, last_char (Py.rstrip s) = Some c /\ Py.isspace c = false.
Proof.
  induction s as [|c r IH]; cbn [Py.rstrip]; [left; reflexivity|].
  destruct (Py.rstrip r) as [|d r'] eqn:E.
  - destruct (Py.isspace c) eqn:W; [left; reflexivity|].
    right. exists c. auto.
  - right. destruct IH as [IH|IH]; [discriminate|].
    exact IH.
Qed.

(** What [strip] leaves is empty or trimmed. *)
Lemma strip_trimmed (s : string) : Py.strip s <> "" -> trimmed (Py.strip s).
Proof.
  unfold Py.strip, trimmed. intros N. split.
  - rewrite (rstrip_first _ N).
    destruct (lstrip_head s) as [E|(c & r & E & W)].
    + rewrite E in N. simpl in N. congruence.
    + rewrite E. exists c. auto.
  - destruct (rstrip_last (Py.lstrip s)) as [E|E]; [congruence | exact E].
Qed.

Lemma first_char_app (a b : string) :
  a <> "" -> first_char (a ++ b) = first_char a.
Proof.
  destruct a; [congruence | reflexivity].
Qed.

Lemma last_char_app (a b : string) :
  b <> "" -> last_char (a ++ b) = last_char b.
Proof.
  intros N. induction a as [|c a IH]; [reflexivity|].
  cbn [append last_char]. destruct (a ++ b)%string eqn:E; [|exact IH].
  destruct a; [simpl in E; congruence | discriminate].
Qed.

Lemma trimmed_nonempty (s : string) : trimmed s -> s <> "".
Proof.
  intros [(c & H & _) _] E. rewrite E in H. discriminate.
Qed.

(** Trimmed pieces glued together make a trimmed text. *)
Lemma join_trimmed (pieces : list string) :
  Forall trimmed pieces -> pieces <> [] -> trimmed (Py.join "" pieces).
Proof.
  unfold Py.join. induction 1 as [|p ps Hp Hps IH]; [congruence|].
  intros _. cbn [String.concat]. destruct ps as [|q qs]; [exact Hp|].
  cbn [append].
  assert (T : trimmed (String.concat "" (q :: qs)))
    by (apply IH; discriminate).
  pose proof (trimmed_nonempty _ Hp) as Np.
  pose proof (trimmed_nonempty _ T) as Nt.
  destruct Hp as [F _]. destruct T as [_ L]. split.
  - rewrite first_char_app by assumption. exact F.
  - rewrite last_char_app by assumption. exact L.
Qed.

Lemma get_text_strip_trimmed (item : Anchor) :
  get_text_strip item <> "" -> trimmed (get_text_strip item).
Proof.
  unfold get_text_strip. intros N. apply join_trimmed.
  - apply Forall_forall. intros p I. apply filter_In in I.
    destruct I as [I T]. apply in_map_iff in I. destruct I as (x & <- & _).
    apply strip_trimmed. apply truthy_true. exact T.
  - intros E. rewrite E in N. apply N. reflexivity.
Qed.

Lemma trimmed_no_outer_white_space (s : string) :
  trimmed s -> no_outer_white_space s.
Proof.
  intros [(c & F & Wc) (d & L & Wd)]. split.
  - exists c. split; [exact F|]. intros H.
    apply isspace_white_space in H. congruence.
  - exists d. split; [exact L|]. intros H.
    apply isspace_white_space in H. congruence.
Qed.

(** Every title [scrape_headlines] returns is trimmed: it is not empty,
    and neither its first nor its last character is a white space
    character (TAB, LF, VT, FF, CR, FS, GS, RS, US, SPACE, NEL or
    NO-BREAK SPACE). *)
Theorem titles_are_trimmed (lib : Lib) (w : World) (name u : string)
    (kw : option string) (n : nat) :
  Forall (fun h => no_outer_white_space (title h))
    (value (scrape_headlines lib w name u kw n)).
Proof.
  rewrite scrape_headlines_value.
  destruct (value (fetch_html lib w u n)) as [soup|]; [|constructor].
  apply Forall_forall. intros h H. apply in_flat_map in H.
  destruct H as (item & _ & H). unfold records_of in H.
  destruct (headline_of lib name u kw item) as [h'|] eqn:E; [|contradiction].
  destruct H as [<-|[]].
  apply headline_of_Some in E. destruct E as (link & _ & _ & T & _ & ->).
  apply trimmed_no_outer_white_space, get_text_strip_trimmed. exact T.
Qed.

(** A title between no-break spaces comes out without them. *)
Example no_break_spaces_are_stripped :
  get_text_strip (mkAnchor [String "160" ("Hello" ++ String "160" "")] None)
  = "Hello".
Proof. reflexivity. Qed.






(** On the sample page, the keyword "RALLY" keeps "Stocks Rally" and
    takes "Bond yields" out. *)
Example keyword_takes_out_other_titles :
  value (scrape_headlines Sample.lib Sample.open_world "a"
           "https://a.example/news" (Some "RALLY") 0) =
  [mkHeadline "a" "Stocks Rally" "https://a.example/1" None].
Proof. reflexivity. Qed.

Lemma records_of_length (lib : Lib) (name u : string) (kw : option string)
    (items : list Anchor) :
  length (flat_map (records_of lib name u kw) items) <= length items.
Proof.
  induction items as [|item rest IH]; [reflexivity|].
  cbn [flat_map]. rewrite length_app. unfold records_of at 1.
  destruct (headline_of lib name u kw item); simpl; lia.
Qed.

(** [scrape_headlines] labels every record with the source name; with a
    document, it returns at most one record per anchor that has a title
    and a link, and the count in its last log line is the number of
    records it returns; without a document it returns nothing and logs no
    count. *)
Theorem scrape_headlines_report (lib : Lib) (w : World) (name u : string)
    (kw : option string) (n : nat) :
  let r := scrape_headlines lib w name u kw n in
  Forall (fun h => source h = name) (value r)
  /\ (forall soup,
        value (fetch_html lib w u n) = Some soup ->
        length (value r) <= length (filter has_title_and_link (anchors soup))
        /\ events r =
           EvLog INFO ("Scraping " ++ name ++ "...")
           :: events (fetch_html lib w u n)
           ++ [EvLog INFO ("Found " ++ Py.str_of_nat (length (value r))
                           ++ " headlines from " ++ name ++ ".")])
  /\ (value (fetch_html lib w u n) = None ->
      value r = []
      /\ events r =
         EvLog INFO ("Scraping " ++ name ++ "...")
         :: events (fetch_html lib w u n)).
Proof.
  cbv zeta. rewrite scrape_headlines_value, scrape_headlines_events.
  split; [|split].
  - destruct (value (fetch_html lib w u n)) as [soup|]; [|constructor].
    eapply Forall_impl; [|apply records_of_well_formed].
    simpl. intros h (S & _). exact S.
  - intros soup E. rewrite E. split; [|reflexivity].
    rewrite records_of_filter. apply records_of_length.
  - intros E. rewrite E, app_nil_r. split; reflexivity.
Qed.

Lemma scrape_headlines_report_witness :
  length (value (scrape_headlines Sample.lib Sample.open_world "a"
                   "https://a.example/news" None 0)) <= 2.
Proof.
  apply (proj1 (proj1 (proj2 (scrape_headlines_report Sample.lib
                                Sample.open_world "a"
                                "https://a.example/news" None 0))
                  (mkDocument [mkAnchor ["Stocks Rally"] (Some "/1");
                               mkAnchor [" "] None;
                               mkAnchor [" Bond yields "] (Some "/2")])
                  eq_refl)).
Defined.

Lemma of_headline_injective (h1 h2 : HeadlineRecord) :
  Json.of_headline h1 = Json.of_headline h2 -> h1 = h2.
Proof.
  destruct h1 as [s1 t1 u1 m1], h2 as [s2 t2 u2 m2].
  unfold Json.of_headline. cbn [source title url time].
  intros H. injection H as -> -> -> H.
  destruct m1, m2; try discriminate; congruence.
Qed.

(** Two lists of records that [save_results] writes as the same JSON text
    are the same list: nothing of a record is lost or blurred in the
    file, whatever characters its strings hold. *)
Theorem json_text_determines_records (d1 d2 : list HeadlineRecord) :
  Json.dumps d1 = Json.dumps d2 -> d1 = d2.
Proof.
  intros H.
  assert (L : Json.loads (Json.dumps d1) = Json.loads (Json.dumps d2))
    by (rewrite H; reflexivity).
  unfold Json.dumps in L. rewrite !loads_encode in L.
  injection L as L. clear H. revert d2 L.
  induction d1 as [|h1 d1 IH]; intros [|h2 d2] L; try discriminate.
  - reflexivity.
  - cbn [map] in L.
    assert (H : Json.of_headline h1 = Json.of_headline h2) by congruence.
    assert (T : map Json.of_headline d1 = map Json.of_headline d2)
      by congruence.
    rewrite (of_headline_injective _ _ H), (IH d2 T). reflexivity.
Qed.

Lemma json_text_determines_records_witness :
  [mkHeadline "a" "Stocks Rally" "https://a.example/1" None] =
  [mkHeadline "a" "Stocks Rally" "https://a.example/1" None].
Proof.
  apply (json_text_determines_records
           [mkHeadline "a" "Stocks Rally" "https://a.example/1" None]
           [mkHeadline "a" "Stocks Rally" "https://a.example/1" None]).
  reflexivity.
Defined.

(* ------------------------------------------------------------------ *)
(** ** [send_email]: retries and pauses *)

Section SendEmailFacts.

Import SendEmail.

Variable smtp : Smtp.
Variable recipient_email : string.

Lemma unit_result (r : Result unit) :
  r = Ok tt \/ exists e, r = Raise e.
Proof.
  destruct r as [[]|e]; eauto.
Qed.

(** The loop returns [True] exactly when one of its turns succeeds. *)
Lemma attempts_true_iff (attempt : Z) (left : nat) :
  fst (attempts smtp recipient_email attempt left) = true <->
  exists j, (attempt <= j < attempt + Z.of_nat left)%Z /\ smtp j = Ok tt.
Proof.
  revert attempt. induction left as [|left IH]; intros attempt.
  - cbn [attempts fst]. split; [discriminate|]. intros (j & H & _). lia.
  - cbn [attempts]. destruct (unit_result (smtp attempt)) as [E|[e E]];
      rewrite E.
    + cbn [fst]. split; [intros _|reflexivity]. exists attempt. split; [lia|auto].
    + specialize (IH (attempt + 1)%Z).
      destruct (attempts smtp recipient_email (attempt + 1) left) as [b ev].
      cbn [fst] in *. rewrite IH. split.
      * intros (j & H & S). exists j. split; [lia | exact S].
      * intros (j & H & S). exists j. split; [|exact S].
        assert (j <> attempt) by congruence. lia.
Qed.

(** The loop never makes more turns than it is given, and never logs an
    error itself. *)
Lemma attempts_bounds (attempt : Z) (left : nat) :
  length (tries (snd (attempts smtp recipient_email attempt left))) <= left
  /\ filter is_error (snd (attempts smtp recipient_email attempt left)) = [].
Proof.
  revert attempt. induction left as [|left IH]; intros attempt.
  - split; reflexivity.
  - cbn [attempts]. destruct (smtp attempt) as [[]|e].
    + cbn. split; [lia | reflexivity].
    + specialize (IH (attempt + 1)%Z).
      destruct (attempts smtp recipient_email (attempt + 1) left) as [b ev].
      cbn [snd] in *. destruct IH as [A B]. unfold tries in *.
      cbn [flat_map app length filter is_error]. split; [lia | exact B].
Qed.

(** Turns that all raise: every one is tried and followed by its pause. *)
Lemma attempts_all_raise (attempt : Z) (left : nat) :
  (forall j, (attempt <= j < attempt + Z.of_nat left)%Z ->
             exists e, smtp j = Raise e) ->
  fst (attempts smtp recipient_email attempt left) = false
  /\ tries (snd (attempts smtp recipient_email attempt left)) =
     numbers attempt left
  /\ sleeps (snd (attempts smtp recipient_email attempt left)) =
     map (Z.mul 2) (numbers attempt left).
Proof.
  revert attempt. induction left as [|left IH]; intros attempt H.
  - repeat split.
  - cbn [attempts]. destruct (H attempt ltac:(lia)) as [e E]. rewrite E.
    specialize (IH (attempt + 1)%Z).
    destruct (attempts smtp recipient_email (attempt + 1) left) as [b ev].
    cbn [fst snd] in *.
    destruct IH as (A & B & C); [intros j J; apply H; lia|].
    cbn [tries sleeps flat_map app numbers map] in *.
    fold (tries ev). fold (sleeps ev). rewrite B, C. auto.
Qed.

(** Turns that raise until one succeeds: the loop stops there. *)
Lemma attempts_first_success (attempt : Z) (before left : nat) :
  before < left ->
  (forall j, (attempt <= j < attempt + Z.of_nat before)%Z ->
             exists e, smtp j = Raise e) ->
  smtp (attempt + Z.of_nat before)%Z = Ok tt ->
  fst (attempts smtp recipient_email attempt left) = true
  /\ tries (snd (attempts smtp recipient_email attempt left)) =
     numbers attempt (S before)
  /\ sleeps (snd (attempts smtp recipient_email attempt left)) =
     map (Z.mul 2) (numbers attempt before).
Proof.
  revert attempt left. induction before as [|before IH];
    intros attempt left L H S.
  - destruct left as [|left]; [lia|]. cbn [attempts].
    replace (attempt + Z.of_nat 0)%Z with attempt in S by lia.
    rewrite S. repeat split.
  - destruct left as [|left]; [lia|]. cbn [attempts].
    destruct (H attempt ltac:(lia)) as [e E]. rewrite E.
    specialize (IH (attempt + 1)%Z left).
    destruct (attempts smtp recipient_email (attempt + 1) left) as [b ev].
    cbn [fst snd] in *.
    destruct IH as (A & B & C).
    + lia.
    + intros j J. apply H. lia.
    + rewrite <- S. f_equal. lia.
    + cbn [tries sleeps flat_map app numbers map] in *.
      fold (tries ev). fold (sleeps ev). rewrite B, C. auto.
Qed.

Lemma total_pauses (attempt : Z) (count : nat) :
  total (map (Z.mul 2) (numbers attempt count)) =
  (Z.of_nat count * (2 * attempt + Z.of_nat count - 1))%Z.
Proof.
  revert attempt. induction count as [|count IH]; intros attempt.
  - reflexivity.
  - cbn [numbers map total fold_right]. fold (total (map (Z.mul 2)
                                                   (numbers (attempt + 1) count))).
    rewrite IH. lia.
Qed.

End SendEmailFacts.

(** [send_email] returns [True] exactly when one of the attempts 1 to
    [retries] goes through; it never tries more than [retries] times; it
    logs its error line when, and only when, it returns [False], as its
    last action; and with [retries] at zero or below it tries nothing and
    fails at once. *)
Theorem send_email_outcome (smtp : SendEmail.Smtp) (recipient_email : string)
    (retries : Z) :
  let r := SendEmail.send_email smtp recipient_email retries in
  let failure :=
    SendEmail.EvLog ERROR
      ("❌ Failed to send email to " ++ recipient_email ++ " after "
       ++ SendEmail.str_of_int retries ++ " attempts") in
  (fst r = true <-> exists j, (1 <= j <= retries)%Z /\ smtp j = Ok tt)
  /\ length (SendEmail.tries (snd r)) <= Z.to_nat retries
  /\ (fst r = true -> filter SendEmail.is_error (snd r) = [])
  /\ (fst r = false ->
      exists body,
        snd r = body ++ [failure] /\ filter SendEmail.is_error body = [])
  /\ ((retries <= 0)%Z -> r = (false, [failure])).
Proof.
  cbv zeta. unfold SendEmail.send_email.
  pose proof (attempts_true_iff smtp recipient_email 1 (Z.to_nat retries)) as T.
  pose proof (attempts_bounds smtp recipient_email 1 (Z.to_nat retries)) as B.
  assert (Z0 : (retries <= 0)%Z ->
               SendEmail.attempts smtp recipient_email 1 (Z.to_nat retries)
               = (false, [])).
  { intros H. replace (Z.to_nat retries) with 0 by lia. reflexivity. }
  destruct (SendEmail.attempts smtp recipient_email 1 (Z.to_nat retries))
    as [sent ev].
  cbn [fst snd] in *. destruct B as [B1 B2].
  destruct sent; cbn [fst snd].
  - split; [|split; [|split; [|split]]].
    + split; [intros _|intros _; reflexivity].
      destruct (proj1 T eq_refl) as (j & H & S). exists j. split; [lia|exact S].
    + exact B1.
    + intros _. exact B2.
    + discriminate.
    + intros H. specialize (Z0 H). discriminate.
  - split; [|split; [|split; [|split]]].
    + split; [discriminate|]. intros (j & H & S).
      apply T. exists j. split; [lia | exact S].
    + unfold SendEmail.tries in *. rewrite flat_map_app, length_app.
      cbn [flat_map app length]. lia.
    + discriminate.
    + intros _. eexists. split; [reflexivity | exact B2].
    + intros H. specialize (Z0 H). injection Z0 as ->. reflexivity.
Qed.

Lemma send_email_outcome_witness :
  SendEmail.send_email (fun _ => Raise "refused") "ann@example.com" 0 =
  (false,
   [SendEmail.EvLog ERROR
      "❌ Failed to send email to ann@example.com after 0 attempts"]).
Proof.
  apply (proj2 (proj2 (proj2 (proj2
           (send_email_outcome (fun _ => Raise "refused")
              "ann@example.com" 0))))).
  lia.
Defined.

(** When the attempts before attempt [k] raise and attempt [k] goes
    through, [send_email] makes exactly the attempts 1 to [k], pauses
    2, 4, ... seconds after the failed ones ([k (k - 1)] seconds in all)
    and returns [True]. *)
Theorem send_email_first_success (smtp : SendEmail.Smtp)
    (recipient_email : string) (retries k : Z) :
  (1 <= k <= retries)%Z ->
  (forall j, (1 <= j < k)%Z -> exists e, smtp j = Raise e) ->
  smtp k = Ok tt ->
  let r := SendEmail.send_email smtp recipient_email retries in
  fst r = true
  /\ SendEmail.tries (snd r) = SendEmail.numbers 1 (Z.to_nat k)
  /\ SendEmail.sleeps (snd r) =
     map (Z.mul 2) (SendEmail.numbers 1 (Z.to_nat k - 1))
  /\ SendEmail.total (SendEmail.sleeps (snd r)) = (k * (k - 1))%Z.
Proof.
  intros K H Hk. cbv zeta. unfold SendEmail.send_email.
  destruct (attempts_first_success smtp recipient_email 1
              (Z.to_nat k - 1) (Z.to_nat retries)) as (A & B & C).
  - lia.
  - intros j J. apply H. lia.
  - rewrite <- Hk. f_equal. lia.
  - destruct (SendEmail.attempts smtp recipient_email 1 (Z.to_nat retries))
      as [sent ev].
    cbn [fst snd] in *. subst sent. cbn [fst snd].
    replace (S (Z.to_nat k - 1)) with (Z.to_nat k) in B by lia.
    split; [reflexivity|]. split; [exact B|]. split; [exact C|].
    rewrite C, total_pauses.
    replace (Z.of_nat (Z.to_nat k - 1)) with (k - 1)%Z by lia. ring.
Qed.

Lemma send_email_first_success_witness :
  SendEmail.total
    (SendEmail.sleeps
       (snd (SendEmail.send_email
               (fun j => if (j <? 3)%Z then Raise "busy" else Ok tt)
               "ann@example.com" 3))) = 6%Z.
Proof.
  refine (proj2 (proj2 (proj2
            (send_email_first_success
               (fun j => if (j <? 3)%Z then Raise "busy" else Ok tt)
               "ann@example.com" 3 3 _ _ _)))).
  - lia.
  - intros j J. exists "busy".
    destruct (Z.ltb_spec j 3); [reflexivity | lia].
  - reflexivity.
Defined.

(** When every attempt raises, [send_email] makes all [retries] attempts,
    pauses 2, 4, ..., [2 * retries] seconds (the pause after attempt [k]
    is [2 * k] seconds, the last one included, [retries (retries + 1)]
    seconds in all) and returns [False]. *)
Theorem send_email_gives_up (smtp : SendEmail.Smtp)
    (recipient_email : string) (retries : Z) :
  (0 <= retries)%Z ->
  (forall j, (1 <= j <= retries)%Z -> exists e, smtp j = Raise e) ->
  let r := SendEmail.send_email smtp recipient_email retries in
  fst r = false
  /\ SendEmail.tries (snd r) = SendEmail.numbers 1 (Z.to_nat retries)
  /\ SendEmail.sleeps (snd r) =
     map (Z.mul 2) (SendEmail.numbers 1 (Z.to_nat retries))
  /\ SendEmail.total (SendEmail.sleeps (snd r)) = (retries * (retries + 1))%Z.
Proof.
  intros R H. cbv zeta. unfold SendEmail.send_email.
  destruct (attempts_all_raise smtp recipient_email 1 (Z.to_nat retries))
    as (A & B & C).
  - intros j J. apply H. lia.
  - destruct (SendEmail.attempts smtp recipient_email 1 (Z.to_nat retries))
      as [sent ev].
    cbn [fst snd] in *. subst sent. cbn [fst snd].
    assert (T : SendEmail.tries (ev ++ [SendEmail.EvLog ERROR
                  ("❌ Failed to send email to " ++ recipient_email
                   ++ " after " ++ SendEmail.str_of_int retries
                   ++ " attempts")]) = SendEmail.tries ev).
    { unfold SendEmail.tries. rewrite flat_map_app. apply app_nil_r. }
    assert (P : SendEmail.sleeps (ev ++ [SendEmail.EvLog ERROR
                  ("❌ Failed to send email to " ++ recipient_email
                   ++ " after " ++ SendEmail.str_of_int retries
                   ++ " attempts")]) = SendEmail.sleeps ev).
    { unfold SendEmail.sleeps. rewrite flat_map_app. apply app_nil_r. }
    rewrite T, P.
    split; [reflexivity|]. split; [exact B|]. split; [exact C|].
    rewrite C, total_pauses.
    replace (Z.of_nat (Z.to_nat retries)) with retries by lia. ring.
Qed.

Lemma send_email_gives_up_witness :
  SendEmail.sleeps
    (snd (SendEmail.send_email (fun _ => Raise "refused")
            "ann@example.com" 3)) = [2; 4; 6]%Z.
Proof.
  refine (proj1 (proj2 (proj2
            (send_email_gives_up (fun _ => Raise "refused")
               "ann@example.com" 3 _ _)))).
  - lia.
  - intros j _. exists "refused". reflexivity.
Defined.

(* ------------------------------------------------------------------ *)
(** ** [clean_data]: the column names *)

Section ColumnNames.

Import CsvToXlsx.

Lemma lower_char_idempotent (c : ascii) :
  Py.lower_char (Py.lower_char c) = Py.lower_char c.
Proof.
  destruct c as [[] [] [] [] [] [] [] []]; reflexivity.
Qed.

Lemma lower_char_not_upper (c : ascii) : is_upper (Py.lower_char c) = false.
Proof.
  destruct c as [[] [] [] [] [] [] [] []]; reflexivity.
Qed.

Lemma lower_char_isspace (c : ascii) :
  Py.isspace (Py.lower_char c) = Py.isspace c.
Proof.
  destruct c as [[] [] [] [] [] [] [] []]; reflexivity.
Qed.

Lemma isspace_not_space (c : ascii) :
  Py.isspace c = false -> Ascii.eqb c " " = false.
Proof.
  destruct (Ascii.eqb_spec c " ") as [->|]; [discriminate | reflexivity].
Qed.

Lemma lstrip_id (s : string) :
  (forall c, first_char s = Some c -> Py.isspace c = false) ->
  Py.lstrip s = s.
Proof.
  destruct s as [|c r]; [reflexivity|]. cbn [first_char Py.lstrip].
  intros H. rewrite (H c eq_refl). reflexivity.
Qed.

Lemma rstrip_id (s : string) :
  (forall c, last_char s = Some c -> Py.isspace c = false) ->
  Py.rstrip s = s.
Proof.
  induction s as [|c r IH]; [reflexivity|]. intros H.
  cbn [Py.rstrip]. destruct r as [|d r'].
  - cbn [Py.rstrip]. rewrite (H c eq_refl). reflexivity.
  - rewrite IH by (intros x L; apply H; exact L). reflexivity.
Qed.

(** A text that is empty or trimmed is left alone by [strip]. *)
Lemma strip_id (s : string) : s = "" \/ trimmed s -> Py.strip s = s.
Proof.
  intros [->|[(c & F & Wc) (d & L & Wd)]]; [reflexivity|].
  unfold Py.strip. rewrite lstrip_id.
  - apply rstrip_id. intros x E. congruence.
  - intros x E. congruence.
Qed.

Lemma first_char_map (f : ascii -> ascii) (g : string -> string) (s : string) :
  (forall c r, g (String c r) = String (f c) (g r)) -> g "" = "" ->
  first_char (g s) = option_map f (first_char s).
Proof.
  intros H E. destruct s; [rewrite E | rewrite H]; reflexivity.
Qed.

Lemma last_char_map (f : ascii -> ascii) (g : string -> string) (s : string) :
  (forall c r, g (String c r) = String (f c) (g r)) -> g "" = "" ->
  last_char (g s) = option_map f (last_char s).
Proof.
  intros H E. induction s as [|c r IH]; [rewrite E; reflexivity|].
  rewrite H. destruct r as [|d r'].
  - rewrite E. reflexivity.
  - rewrite H in *. exact IH.
Qed.

(** Lowering and replacing spaces keep a trimmed text trimmed. *)
Lemma normalize_trimmed (s : string) :
  trimmed s -> trimmed (replace_char " " "_" (Py.lower s)).
Proof.
  intros [(c & F & Wc) (d & L & Wd)].
  set (f := fun x : ascii =>
              if Ascii.eqb (Py.lower_char x) " " then "_"%char
              else Py.lower_char x).
  assert (G : forall x r,
             replace_char " " "_" (Py.lower (String x r)) =
             String (f x) (replace_char " " "_" (Py.lower r)))
    by reflexivity.
  assert (K : forall x, Py.isspace x = false -> Py.isspace (f x) = false).
  { intros x W. unfold f.
    rewrite isspace_not_space by (rewrite lower_char_isspace; exact W).
    rewrite lower_char_isspace. exact W. }
  split.
  - exists (f c).
    rewrite (first_char_map f (fun t => replace_char " " "_" (Py.lower t)) s G
               eq_refl), F.
    split; [reflexivity | apply K; exact Wc].
  - exists (f d).
    rewrite (last_char_map f (fun t => replace_char " " "_" (Py.lower t)) s G
               eq_refl), L.
    split; [reflexivity | apply K; exact Wd].
Qed.

Lemma replace_lower_fixed (s : string) :
  replace_char " " "_" (Py.lower (replace_char " " "_" (Py.lower s))) =
  replace_char " " "_" (Py.lower s).
Proof.
  induction s as [|c r IH]; [reflexivity|].
  cbn [Py.lower replace_char]. rewrite IH. f_equal.
  destruct c as [[] [] [] [] [] [] [] []]; reflexivity.
Qed.

(** The names [clean_data] gives to the columns: as many as before, each
    without a space and without a capital letter, each a fixed point of
    the renaming (cleaning a cleaned table renames nothing). *)
Theorem normalized_column_names (columns : list string) :
  length (normalize_columns columns) = length columns
  /\ Forall (fun name =>
               Forall (fun c => c <> " "%char /\ is_upper c = false)
                 (list_ascii_of_string name))
       (normalize_columns columns)
  /\ normalize_columns (normalize_columns columns) = normalize_columns columns.
Proof.
  unfold normalize_columns. split; [apply length_map|]. split.
  - apply Forall_forall. intros name I. apply in_map_iff in I.
    destruct I as (col & <- & _). unfold normalize_column.
    induction (Py.strip col) as [|c r IH]; [constructor|].
    cbn [Py.lower replace_char list_ascii_of_string]. constructor; [|exact IH].
    destruct (Ascii.eqb_spec (Py.lower_char c) " ") as [E|N].
    + split; [discriminate | reflexivity].
    + split; [exact N | apply lower_char_not_upper].
  - rewrite map_map. apply map_ext. intros col. unfold normalize_column.
    rewrite strip_id; [apply replace_lower_fixed|].
    destruct (Py.strip col) as [|c r] eqn:E; [left; reflexivity|].
    right. apply normalize_trimmed. rewrite <- E. apply strip_trimmed.
    congruence.
Qed.

(** A column is given to the date parser exactly when "date" occurs in
    its name, letter case ignored. *)
Theorem date_columns_ignore_case (col : string) :
  is_date_column col = true <-> substring_ci "date" col.
Proof.
  unfold is_date_column. rewrite contains_spec.
  apply (substring_ci_lower "date" col).
Qed.

Lemma date_columns_ignore_case_witness :
  is_date_column "Order DATE" = true.
Proof.
  apply (proj2 (date_columns_ignore_case "Order DATE")).
  exists "Order ", "DATE", "". split; [reflexivity|].
  cbn [same_letters].
  repeat split; right; right; (split; [vm_compute; lia | reflexivity]).
Defined.

End ColumnNames.
